(** * Job lifecycle of the OpenFOAM servers

    Shallow embedding of [docker/cfd/openfoam/cfd-server.py] (class
    [CFDSimulation] and its Flask handlers) and of
    [docker/cfd/openfoam/mesh-server.py] (class [MeshGenerationJob] and its
    handlers).

    - Python values: JSON values as an inductive type, [str] as [string],
      [int] as [Z], [float] as an extended rational (see [pyfloat]).
    - Exceptions: a computation returns [Ok v] or [Raise msg], where [msg]
      is [str(e)] (the only thing the handlers of both files look at).
    - Effects: a method of a job is a function from the answers of its
      environment (file system, external commands, clock) to the sequence
      of the attribute assignments and I/O operations it performs, in
      program order, together with its result.  A poller or a cancel request
      observes, or writes, the job between two such events. *)

From Stdlib Require Import ZArith QArith Qabs Qround String Ascii List Lia Lqa Bool.
From stdpp Require Import gmap strings pretty.
Import ListNotations.
Close Scope Q_scope.
Set Warnings "-register-all".

(* ===================================================================== *)
(** ** Python prelude *)
(* ===================================================================== *)

Module Py.

(** A Python computation either returns or raises; an exception is kept as
    its message [str(e)]. *)
Inductive result (A : Type) : Type :=
| Ok (a : A)
| Raise (msg : string).
Arguments Ok {A} a.
Arguments Raise {A} msg.

Definition rbind {A B} (r : result A) (f : A -> result B) : result B :=
  match r with
  | Ok a => f a
  | Raise e => Raise e
  end.

(** [try: body  except: handler] on pure computations. *)
Definition rcatch {A} (r : result A) (handler : string -> result A) : result A :=
  match r with
  | Ok a => Ok a
  | Raise e => handler e
  end.

(** *** Floats

    A Python [float] is an IEEE binary64 value.  Finite values are
    represented by the rational they denote and arithmetic on them is exact:
    rounding and signed zeros are not represented.  The special values keep
    their IEEE/Python behaviour. *)
Inductive pyfloat : Type :=
| Fin (q : Q)
| PInf
| NInf
| NaN.

Definition Qtrunc (q : Q) : Z := Z.quot (Qnum q) (Zpos (Qden q)).

(** [int(x)] for a float [x]: truncation towards zero. *)
Definition py_int (x : pyfloat) : result Z :=
  match x with
  | Fin q => Ok (Qtrunc q)
  | NaN => Raise "cannot convert float NaN to integer"
  | PInf | NInf => Raise "cannot convert float infinity to integer"
  end.

Definition Qsign_pos (q : Q) : bool := (0 <? Qnum q)%Z.
Definition Qis_zero (q : Q) : bool := (Qnum q =? 0)%Z.

Definition finf (positive : bool) : pyfloat := if positive then PInf else NInf.

(** [x * y] on floats. *)
Definition fmul (x y : pyfloat) : pyfloat :=
  match x, y with
  | NaN, _ | _, NaN => NaN
  | Fin a, Fin b => Fin (a * b)
  | Fin a, PInf | PInf, Fin a => if Qis_zero a then NaN else finf (Qsign_pos a)
  | Fin a, NInf | NInf, Fin a => if Qis_zero a then NaN else finf (negb (Qsign_pos a))
  | PInf, PInf | NInf, NInf => PInf
  | PInf, NInf | NInf, PInf => NInf
  end.

(** [x / y] on floats; Python raises on a zero divisor. *)
Definition fdiv (x y : pyfloat) : result pyfloat :=
  match y with
  | Fin b =>
      if Qis_zero b then Raise "float division by zero"
      else match x with
           | Fin a => Ok (Fin (a / b))
           | PInf => Ok (finf (Qsign_pos b))
           | NInf => Ok (finf (negb (Qsign_pos b)))
           | NaN => Ok NaN
           end
  | PInf | NInf =>
      match x with
      | Fin _ => Ok (Fin 0)
      | _ => Ok NaN
      end
  | NaN => Ok NaN
  end.

(** [x < y] on floats; every comparison with NaN is false. *)
Definition flt (x y : pyfloat) : bool :=
  match x, y with
  | NaN, _ | _, NaN => false
  | Fin a, Fin b => negb (Qle_bool b a)
  | NInf, NInf | PInf, _ => false
  | NInf, _ => true
  | Fin _, PInf => true
  | Fin _, NInf => false
  end.

(** The builtin [min(x, y)]: the second argument is taken only when it is
    strictly smaller than the first. *)
Definition py_min (x y : pyfloat) : pyfloat := if flt y x then y else x.

(** Conversion of an [int] operand of a float operation. *)
Definition float_overflow_bound : Z := (2 ^ 1024 - 2 ^ 970)%Z.

Definition float_of_int (z : Z) : result pyfloat :=
  if (float_overflow_bound <=? Z.abs z)%Z
  then Raise "int too large to convert to float"
  else Ok (Fin (inject_Z z)).

(** *** Strings *)

Definition is_space (c : ascii) : bool :=
  let n := nat_of_ascii c in
  Nat.eqb n 32 || (Nat.leb 9 n && Nat.leb n 13) || (Nat.leb 28 n && Nat.leb n 31).

Fixpoint lstrip (s : string) : string :=
  match s with
  | String c r => if is_space c then lstrip r else s
  | EmptyString => EmptyString
  end.

Fixpoint rstrip (s : string) : string :=
  match s with
  | String c r =>
      match rstrip r with
      | EmptyString => if is_space c then EmptyString else String c EmptyString
      | r' => String c r'
      end
  | EmptyString => EmptyString
  end.

(** [s.strip()] (ASCII white space). *)
Definition strip (s : string) : string := rstrip (lstrip s).

(** [s.split(sep)] for a one-character separator. *)
Fixpoint split (sep : ascii) (s : string) : list string :=
  match s with
  | EmptyString => [EmptyString]
  | String c r =>
      if Ascii.eqb c sep then EmptyString :: split sep r
      else match split sep r with
           | h :: t => String c h :: t
           | [] => [String c EmptyString]
           end
  end.

(** [l[i]] on a list. *)
Definition index {A} (l : list A) (i : nat) : result A :=
  match nth_error l i with
  | Some a => Ok a
  | None => Raise "list index out of range"
  end.

Definition lower_ascii (c : ascii) : ascii :=
  let n := nat_of_ascii c in
  if Nat.leb 65 n && Nat.leb n 90 then ascii_of_nat (n + 32) else c.

Fixpoint lower (s : string) : string :=
  match s with
  | String c r => String (lower_ascii c) (lower r)
  | EmptyString => EmptyString
  end.

(** [needle in s] on strings. *)
Fixpoint contains (needle s : string) : bool :=
  String.prefix needle s ||
  match s with
  | String _ r => contains needle r
  | EmptyString => false
  end.

(** *** [float(s)] on a string

    The grammar of the builtin: optional sign, then [inf], [infinity] or
    [nan] in any case, or a decimal number with optional fraction and
    exponent, digits possibly grouped by single underscores; surrounding
    white space is ignored. *)

Definition digit_of (c : ascii) : option Z :=
  let n := nat_of_ascii c in
  if Nat.leb 48 n && Nat.leb n 57 then Some (Z.of_nat (n - 48)) else None.

Fixpoint digits_more (acc : Z) (n : nat) (s : string) : Z * nat * string :=
  match s with
  | String c r =>
      match digit_of c with
      | Some d => digits_more (10 * acc + d)%Z (S n) r
      | None =>
          if Ascii.eqb c "_" then
            match r with
            | String c' r' =>
                match digit_of c' with
                | Some d => digits_more (10 * acc + d)%Z (S n) r'
                | None => (acc, n, s)
                end
            | EmptyString => (acc, n, s)
            end
          else (acc, n, s)
      end
  | EmptyString => (acc, n, s)
  end.

(** [digitpart]: value, number of digits, rest of the input. *)
Definition digitpart (s : string) : option (Z * nat * string) :=
  match s with
  | String c r =>
      match digit_of c with
      | Some d => Some (digits_more d 1 r)
      | None => None
      end
  | EmptyString => None
  end.

Definition signed (s : string) : bool * string :=
  match s with
  | String "-" r => (true, r)
  | String "+" r => (false, r)
  | _ => (false, s)
  end.

Definition scale10 (m e : Z) : Q :=
  if (0 <=? e)%Z then inject_Z (m * 10 ^ e) else Qmake m (Z.to_pos (10 ^ (- e))).

Definition parse_decimal (s : string) : option Q :=
  let '(ip, has_int, s1) :=
    match digitpart s with
    | Some (v, _, r) => (v, true, r)
    | None => (0%Z, false, s)
    end in
  let '(fp, nf, has_frac, s2) :=
    match s1 with
    | String "." r =>
        match digitpart r with
        | Some (v, n, r') => (v, n, true, r')
        | None => (0%Z, 0, false, r)
        end
    | _ => (0%Z, 0, false, s1)
    end in
  if negb (has_int || has_frac) then None
  else
    let mant := (ip * 10 ^ Z.of_nat nf + fp)%Z in
    match s2 with
    | EmptyString => Some (scale10 mant (- Z.of_nat nf))
    | String c r =>
        if Ascii.eqb c "e" || Ascii.eqb c "E" then
          let '(neg, r1) := signed r in
          match digitpart r1 with
          | Some (ev, _, EmptyString) =>
              Some (scale10 mant ((if neg then - ev else ev) - Z.of_nat nf))
          | _ => None
          end
        else None
    end.

Definition py_float (s : string) : result pyfloat :=
  let '(neg, body) := signed (strip s) in
  let word := lower body in
  if String.eqb word "inf" || String.eqb word "infinity" then Ok (finf (negb neg))
  else if String.eqb word "nan" then Ok NaN
  else match parse_decimal body with
       | Some q =>
           if Qle_bool (inject_Z float_overflow_bound) (Qabs q)
           then Ok (finf (negb neg))
           else Ok (Fin (if neg then - q else q)%Q)
       | None => Raise ("could not convert string to float: " +:+ s)
       end.

(** *** JSON values, as [request.json] delivers them *)

Inductive json : Type :=
| JNull
| JBool (b : bool)
| JInt (z : Z)
| JFloat (f : pyfloat)
| JStr (s : string)
| JList (l : list json)
| JDict (items : list (string * json)).

Fixpoint assoc (k : string) (items : list (string * json)) : option json :=
  match items with
  | (k', v) :: r => if String.eqb k k' then Some v else assoc k r
  | [] => None
  end.

Definition is_jstr (k : string) (j : json) : bool :=
  match j with
  | JStr s => String.eqb k s
  | _ => false
  end.

(** [k in j] for a string [k]: key of a dict, element of a list, substring
    of a string; anything else is not iterable. *)
Definition py_in (k : string) (j : json) : result bool :=
  match j with
  | JDict items => Ok (match assoc k items with Some _ => true | None => false end)
  | JList l => Ok (existsb (is_jstr k) l)
  | JStr s => Ok (contains k s)
  | JNull => Raise "argument of type 'NoneType' is not iterable"
  | JBool _ => Raise "argument of type 'bool' is not iterable"
  | JInt _ => Raise "argument of type 'int' is not iterable"
  | JFloat _ => Raise "argument of type 'float' is not iterable"
  end.

(** [j.get(k, default)]: only a dict has the method. *)
Definition py_get (j : json) (k : string) (default : json) : result json :=
  match j with
  | JDict items => Ok (match assoc k items with Some v => v | None => default end)
  | JNull => Raise "'NoneType' object has no attribute 'get'"
  | JList _ => Raise "'list' object has no attribute 'get'"
  | JStr _ => Raise "'str' object has no attribute 'get'"
  | _ => Raise "object has no attribute 'get'"
  end.

(** [j[k]] for a string key. *)
Definition py_getitem (j : json) (k : string) : result json :=
  match j with
  | JDict items =>
      match assoc k items with
      | Some v => Ok v
      | None => Raise ("'" +:+ k +:+ "'")
      end
  | JList _ => Raise "list indices must be integers or slices, not str"
  | JStr _ => Raise "string indices must be integers, not 'str'"
  | _ => Raise "object is not subscriptable"
  end.

(** Truth value of a JSON value in a condition. *)
Definition truthy (j : json) : bool :=
  match j with
  | JNull => false
  | JBool b => b
  | JInt z => negb (z =? 0)%Z
  | JFloat (Fin q) => negb (Qis_zero q)
  | JFloat _ => true
  | JStr s => negb (String.eqb s "")
  | JList l => match l with [] => false | _ => true end
  | JDict d => match d with [] => false | _ => true end
  end.

(** [x / v] for a float [x] and a value [v] taken from a JSON document. *)
Definition truediv (x : pyfloat) (v : json) : result pyfloat :=
  match v with
  | JFloat y => fdiv x y
  | JInt z => rbind (float_of_int z) (fdiv x)
  | JBool b => fdiv x (Fin (if b then 1 else 0))
  | JStr _ => Raise "unsupported operand type(s) for /: 'float' and 'str'"
  | JNull => Raise "unsupported operand type(s) for /: 'float' and 'NoneType'"
  | JList _ => Raise "unsupported operand type(s) for /: 'float' and 'list'"
  | JDict _ => Raise "unsupported operand type(s) for /: 'float' and 'dict'"
  end.

End Py.
Import Py.

(* ===================================================================== *)
(** ** Jobs, events and the environment *)
(* ===================================================================== *)

(** The attributes that [CFDSimulation.__init__] and
    [MeshGenerationJob.__init__] both create.  [id] and [config] are never
    reassigned; the others are the mutable part of the record. *)
Record job : Type := mkJob {
  id : string;
  config : json;
  status : string;
  progress : Z;
  start_time : option Q;
  end_time : option Q;
  error : option string
}.

Definition path : Type := string.

(** [base / name] of [pathlib]: an absolute right operand replaces the
    left one. *)
Definition path_join (base : path) (name : string) : path :=
  match name with
  | String "/" _ => name
  | _ => base +:+ "/" +:+ name
  end.
Infix "//" := path_join (at level 40, left associativity).

(** The right operand of [base / v] when [v] comes from a JSON document:
    only a string can be joined to a path. *)
Definition path_operand (v : json) : result string :=
  match v with
  | JStr s => Ok s
  | _ => Raise "unsupported operand type(s) for /: 'PosixPath' and non-str"
  end.

Definition path_join_json (base : path) (v : json) : result path :=
  rbind (path_operand v) (fun name => Ok (base // name)).

(** Operations on the world outside the interpreter. *)
Inductive io_op : Type :=
| Mkdir (p : path)                                (* Path.mkdir *)
| WriteText (p : path)                            (* Path.write_text *)
| CopyTree (src dst : path)                       (* shutil.copytree *)
| CopyFile (src dst : path)                       (* shutil.copy *)
| Chdir (p : path)                                (* os.chdir *)
| OpenW (p : path)                                (* open(p, "w") *)
| Spawn (cmd : list string) (cwd : option path)   (* subprocess.run, Popen *)
| Sleep                                           (* time.sleep *)
| LoadGeometry (p : path)                         (* trimesh.load, dump, bounds *)
| ExportStl (p : path)                            (* mesh.export *)
| Compute (what : string).                        (* numeric templating *)

(** What a thread does, one entry per statement with a visible effect:
    an assignment to an attribute of [self], or a completed I/O operation. *)
Inductive event : Type :=
| SetStatus (s : string)
| SetProgress (n : Z)
| SetError (e : string)
| SetStartTime (t : Q)
| SetEndTime (t : Q)
| SetMeshStats (stats : list (string * Z))
| IO (op : io_op).

(** What one iteration of a monitoring loop finds: the outcome of reading
    the log file, and the clock. *)
Record observation : Type := mkObs {
  obs_log : result (list string);
  obs_time : Q
}.

(** The answers of the environment to one runner thread.
    [raises op] is the message of the exception that [op] raises, if it
    does; [monitor_obs] has one entry per iteration during which the child
    process was still running ([process.poll() is None]). *)
Record world : Type := mkWorld {
  raises : io_op -> option string;
  path_exists : path -> bool;
  iterdir : path -> result (list (string * bool));
  returncode : list string -> Z;
  stdout : list string -> string;
  time_start : Q;
  time_end : Q;
  monitor_obs : list observation
}.

(** *** Threads as event traces *)

Definition M (A : Type) : Type := (list event * result A)%type.

Definition ret {A} (a : A) : M A := ([], Ok a).

Definition bind {A B} (m : M A) (f : A -> M B) : M B :=
  match m with
  | (t, Ok a) => let '(t', r) := f a in (t ++ t', r)
  | (t, Raise e) => (t, Raise e)
  end.

(** [try: body  except Exception as e: handler(str(e))]. *)
Definition try_except {A} (body : M A) (handler : string -> M A) : M A :=
  match body with
  | (t, Ok a) => (t, Ok a)
  | (t, Raise e) => let '(t', r) := handler e in (t ++ t', r)
  end.

Definition lift {A} (r : result A) : M A := ([], r).

Definition set (e : event) : M unit := ([e], Ok tt).

Definition io (w : world) (op : io_op) : M unit :=
  match raises w op with
  | Some msg => ([], Raise msg)
  | None => ([IO op], Ok tt)
  end.

(** [time.sleep(seconds)] *)
Definition sleep : M unit := ([IO Sleep], Ok tt).

Declare Scope py_scope.
Delimit Scope py_scope with py.
Notation "'let*' x ':=' m 'in' k" := (bind m (fun x => k))
  (at level 10, x name, m at level 100, k at level 200) : py_scope.
Notation "m ;; k" := (bind m (fun _ => k))
  (at level 100, k at level 200, right associativity) : py_scope.
Notation "'let+' x ':=' r 'in' k" := (rbind r (fun x => k))
  (at level 10, x name, r at level 100, k at level 200) : py_scope.

(** Effect of one event on the record. *)
Definition apply_event (j : job) (e : event) : job :=
  match e with
  | SetStatus s => mkJob (id j) (config j) s (progress j) (start_time j) (end_time j) (error j)
  | SetProgress n => mkJob (id j) (config j) (status j) n (start_time j) (end_time j) (error j)
  | SetError m => mkJob (id j) (config j) (status j) (progress j) (start_time j) (end_time j) (Some m)
  | SetStartTime t => mkJob (id j) (config j) (status j) (progress j) (Some t) (end_time j) (error j)
  | SetEndTime t => mkJob (id j) (config j) (status j) (progress j) (start_time j) (Some t) (error j)
  | SetMeshStats _ | IO _ => j
  end.

Definition apply_events (j : job) (t : list event) : job := fold_left apply_event t j.

(** The values a thread assigns to [status], in order. *)
Definition status_writes (t : list event) : list string :=
  flat_map (fun e => match e with SetStatus s => [s] | _ => [] end) t.

Definition progress_writes (t : list event) : list Z :=
  flat_map (fun e => match e with SetProgress n => [n] | _ => [] end) t.

Definition io_ops (t : list event) : list io_op :=
  flat_map (fun e => match e with IO op => [op] | _ => [] end) t.

(** *** One job, its runner thread and its clients

    The runner thread is started once; afterwards the record is shared
    between that thread and the request handlers.  [pending] is what the
    runner has still to do. *)
Inductive action : Type :=
| RunnerStep      (* the runner thread executes its next event *)
| Poll            (* GET  .../<id>         : get_status *)
| Cancel.         (* POST .../<id>/cancel  : status = "cancelled" *)

Record shared : Type := mkShared {
  record : job;
  pending : list event
}.

Definition step (s : shared) (a : action) : shared :=
  match a with
  | RunnerStep =>
      match pending s with
      | e :: rest => mkShared (apply_event (record s) e) rest
      | [] => s
      end
  | Poll => s
  | Cancel => mkShared (apply_event (record s) (SetStatus "cancelled")) (pending s)
  end.

Definition run (s : shared) (sched : list action) : shared := fold_left step sched s.

(** HTTP responses: [jsonify(body), code]. *)
Record response : Type := mkResponse {
  body : json;
  code : Z
}.

Definition error_response (msg : string) (c : Z) : response :=
  mkResponse (JDict [("error", JStr msg)]) c.

(** Outcome of a handler that may create a job: the response, the registry
    afterwards, and the job whose runner thread was started, if any. *)
Record created (J : Type) : Type := mkCreated {
  reply : response;
  registry : gmap string J;
  spawned : option J
}.
Arguments mkCreated {J} reply registry spawned.
Arguments reply {J} c.
Arguments registry {J} c.
Arguments spawned {J} c.

Definition terminal (s : string) : bool :=
  String.eqb s "completed" || String.eqb s "failed" || String.eqb s "cancelled".

(** The status values of the job record named by the specification. *)
Definition job_statuses : list string :=
  ["queued"; "setting_up"; "running"; "post_processing"; "completed"; "failed"; "cancelled"].

Local Open Scope py_scope.

(* ===================================================================== *)
(** ** cfd-server.py *)
(* ===================================================================== *)

Module CFD.

Definition CASES_DIR : path := "/cases".
Definition MESHES_DIR : path := "/meshes".
Definition RESULTS_DIR : path := "/results".

(** [CFDSimulation.__init__] *)
Definition CFDSimulation (simulation_id : string) (config : json) : job :=
  mkJob simulation_id config "queued" 0 None None None.

Definition case_dir (self : job) : path := CASES_DIR // id self.
Definition result_dir (self : job) : path := RESULTS_DIR // id self.

(** [float(line.split("=")[1].strip())] *)
Definition time_value (line : string) : result pyfloat :=
  let+ piece := index (split "=" line) 1 in
  py_float (strip piece).

(** The loop over the lines of the log in [_parse_log_progress]. *)
Fixpoint time_steps_of (lines : list string) (time_steps : list pyfloat) : list pyfloat :=
  match lines with
  | line :: rest =>
      if String.prefix "Time =" line then
        match time_value line with
        | Ok time_val => time_steps_of rest (time_steps ++ [time_val])
        | Raise _ => time_steps_of rest time_steps
        end
      else time_steps_of rest time_steps
  | [] => time_steps
  end.

(** [CFDSimulation._parse_log_progress]; [file] is the outcome of opening
    the log and reading its lines. *)
Definition _parse_log_progress (self : job) (file : result (list string)) : result pyfloat :=
  rcatch
    (let+ lines := file in
     let time_steps := time_steps_of lines [] in
     match last time_steps with
     | Some current_time =>
         let+ end_time := py_get (config self) "simulation_time" (JInt 1000) in
         let+ ratio := truediv current_time end_time in
         Ok (py_min ratio (Fin 1))
     | None => Ok (Fin 0)
     end)
    (fun _ => Ok (Fin 0)).

Section Methods.

Variable w : world.

Definition _create_boundary_conditions (self : job) : M unit :=
  let* _ := lift (py_get (config self) "wind_speed" (JInt 10)) in
  io w (WriteText (case_dir self // "0" // "U")) ;;
  io w (WriteText (case_dir self // "0" // "p")) ;;
  io w (WriteText (case_dir self // "0" // "k")) ;;
  io w (WriteText (case_dir self // "0" // "epsilon")).

Definition _create_transport_properties (self : job) : M unit :=
  io w (WriteText (case_dir self // "constant" // "transportProperties")).

Definition _create_turbulence_properties (self : job) : M unit :=
  let* _ := lift (py_get (config self) "turbulence_model" (JStr "kEpsilon")) in
  io w (WriteText (case_dir self // "constant" // "turbulenceProperties")).

Definition _create_control_dict (self : job) : M unit :=
  let* _ := lift (py_get (config self) "simulation_time" (JInt 1000)) in
  let* _ := lift (py_get (config self) "wind_speed" (JInt 10)) in
  io w (WriteText (case_dir self // "system" // "controlDict")).

Definition _create_fv_schemes (self : job) : M unit :=
  io w (WriteText (case_dir self // "system" // "fvSchemes")).

Definition _create_fv_solution (self : job) : M unit :=
  io w (WriteText (case_dir self // "system" // "fvSolution")).

(** [CFDSimulation.setup_case] *)
Definition setup_case (self : job) : M bool :=
  try_except
    (set (SetStatus "setting_up") ;;
     io w (Mkdir (case_dir self)) ;;
     io w (Mkdir (case_dir self // "0")) ;;
     io w (Mkdir (case_dir self // "constant")) ;;
     io w (Mkdir (case_dir self // "system")) ;;
     _create_boundary_conditions self ;;
     _create_transport_properties self ;;
     _create_turbulence_properties self ;;
     _create_control_dict self ;;
     _create_fv_schemes self ;;
     _create_fv_solution self ;;
     let* mesh_id := lift (py_get (config self) "mesh_id" JNull) in
     (if truthy mesh_id then
        let* mesh_dir := lift (path_join_json MESHES_DIR mesh_id) in
        if path_exists w mesh_dir then
          io w (CopyTree (mesh_dir // "constant" // "polyMesh")
                         (case_dir self // "constant" // "polyMesh"))
        else ret tt
      else ret tt) ;;
     set (SetProgress 20) ;;
     ret true)
    (fun e =>
       set (SetError ("Setup failed: " +:+ e)) ;;
       set (SetStatus "failed") ;;
       ret false).

(** The [while process.poll() is None] loop of [run_simulation]. *)
Fixpoint monitor (self : job) (obs : list observation) : M unit :=
  match obs with
  | o :: rest =>
      sleep ;;
      let* progress := lift (_parse_log_progress self (obs_log o)) in
      let* k := lift (py_int (fmul progress (Fin 0.4))) in
      set (SetProgress (50 + k)) ;;
      monitor self rest
  | [] => ret tt
  end.

Definition _sample_fields (self : job) : M unit :=
  io w (WriteText (case_dir self // "system" // "sampleDict")) ;;
  io w (Spawn ["postProcess"; "-func"; "sample"; "-latestTime"] (Some (case_dir self))).

Definition _extract_forces (self : job) : M unit :=
  let forces_file :=
    case_dir self // "postProcessing" // "forceCoeffs" // "0" // "forceCoeffs.dat" in
  if path_exists w forces_file then
    io w (CopyFile forces_file (result_dir self // "forceCoeffs.dat"))
  else ret tt.

(** Order of the pairs [(time_val, name)]. *)
Definition feq (x y : pyfloat) : bool :=
  match x, y with
  | Fin a, Fin b => Qeq_bool a b
  | PInf, PInf | NInf, NInf => true
  | _, _ => false
  end.

Definition pair_lt (a b : pyfloat * string) : bool :=
  if feq (fst a) (fst b) then String.ltb (snd a) (snd b) else flt (fst a) (fst b).

Fixpoint insert_reverse (x : pyfloat * string) (l : list (pyfloat * string)) :=
  match l with
  | y :: r => if pair_lt x y then y :: insert_reverse x r else x :: l
  | [] => [x]
  end.

(** [l.sort(reverse=True)] *)
Definition sort_reverse (l : list (pyfloat * string)) : list (pyfloat * string) :=
  fold_right insert_reverse [] l.

Definition time_dirs_of (items : list (string * bool)) : list (pyfloat * string) :=
  flat_map (fun item : string * bool =>
              if snd item then
                match py_float (fst item) with
                | Ok time_val => [(time_val, fst item)]
                | Raise _ => []
                end
              else []) items.

(** [CFDSimulation._get_latest_time] *)
Definition _get_latest_time (self : job) : M (option string) :=
  let* items := lift (iterdir w (case_dir self)) in
  match sort_reverse (time_dirs_of items) with
  | first :: _ => ret (Some (snd first))
  | [] => ret None
  end.

Fixpoint copy_fields (src_time_dir result_time_dir : path) (fields : list string) : M unit :=
  match fields with
  | field_file :: rest =>
      let src := src_time_dir // field_file in
      (if path_exists w src then io w (CopyFile src (result_time_dir // field_file))
       else ret tt) ;;
      copy_fields src_time_dir result_time_dir rest
  | [] => ret tt
  end.

(** [CFDSimulation._post_process] *)
Definition _post_process (self : job) : M unit :=
  io w (Mkdir (result_dir self)) ;;
  _sample_fields self ;;
  _extract_forces self ;;
  let* latest_time := _get_latest_time self in
  match latest_time with
  | Some name =>
      if String.eqb name "" then ret tt
      else
        let result_time_dir := result_dir self // name in
        io w (Mkdir result_time_dir) ;;
        let src_time_dir := case_dir self // name in
        if path_exists w src_time_dir then
          copy_fields src_time_dir result_time_dir ["U"; "p"; "k"; "epsilon"]
        else ret tt
  | None => ret tt
  end.

(** [CFDSimulation.run_simulation] *)
Definition run_simulation (self : job) : M bool :=
  try_except
    (set (SetStatus "running") ;;
     set (SetStartTime (time_start w)) ;;
     set (SetProgress 40) ;;
     io w (Chdir (case_dir self)) ;;
     set (SetProgress 45) ;;
     io w (Spawn ["checkMesh"] None) ;;
     if negb (returncode w ["checkMesh"] =? 0)%Z then
       set (SetError "Mesh check failed") ;;
       set (SetStatus "failed") ;;
       ret false
     else
       set (SetProgress 50) ;;
       let log_file := case_dir self // "log.simpleFoam" in
       io w (OpenW log_file) ;;
       io w (Spawn ["simpleFoam"] None) ;;
       monitor self (monitor_obs w) ;;
       if negb (returncode w ["simpleFoam"] =? 0)%Z then
         set (SetError "Simulation failed") ;;
         set (SetStatus "failed") ;;
         ret false
       else
         set (SetProgress 90) ;;
         set (SetStatus "post_processing") ;;
         _post_process self ;;
         set (SetProgress 100) ;;
         set (SetStatus "completed") ;;
         set (SetEndTime (time_end w)) ;;
         ret true)
    (fun e =>
       set (SetError ("Simulation error: " +:+ e)) ;;
       set (SetStatus "failed") ;;
       ret false).

(** [run_simulation_thread] *)
Definition run_simulation_thread (simulation : job) : M unit :=
  let* ok := setup_case simulation in
  if ok then run_simulation simulation ;; ret tt else ret tt.

(** Everything the runner thread of [simulation] does. *)
Definition thread_trace (simulation : job) : list event :=
  fst (run_simulation_thread simulation).

(** The job right after [thread.start()]. *)
Definition started (simulation : job) : shared :=
  mkShared simulation (thread_trace simulation).

End Methods.

(** [CFDSimulation.get_status]; [now] is [time.time()]. *)
Record status_view : Type := mkView {
  v_id : string;
  v_status : string;
  v_progress : Z;
  v_error : option string;
  v_duration : option Q;
  v_start_time : option Q;
  v_end_time : option Q
}.

Definition get_status (now : Q) (self : job) : status_view :=
  let duration :=
    match start_time self with
    | Some t0 =>
        match end_time self with
        | Some t1 => Some (t1 - t0)%Q
        | None => Some (now - t0)%Q
        end
    | None => None
    end in
  mkView (id self) (status self) (progress self) (error self) duration
         (start_time self) (end_time self).

(** The loop over [required_fields] in [start_simulation]: the first field
    that is not [in config], if any. *)
Fixpoint first_missing (required_fields : list string) (config : json)
  : result (option string) :=
  match required_fields with
  | field :: rest =>
      let+ present := py_in field config in
      if negb present then Ok (Some field) else first_missing rest config
  | [] => Ok None
  end.

(** [start_simulation]: [request_json] is [request.json] ([JNull] when the
    request has no JSON body or the body is [null]), [uuid] is the value of
    [str(uuid.uuid4())]. *)
Definition start_simulation (request_json : json) (uuid : string)
    (active_simulations : gmap string job) : created job :=
  let attempt :=
    let config := request_json in
    let+ missing := first_missing ["wind_speed"; "mesh_id"] config in
    match missing with
    | Some field =>
        Ok (mkCreated (error_response ("Missing required field: " +:+ field) 400)
                      active_simulations None)
    | None =>
        let sim_id := uuid in
        let simulation := CFDSimulation sim_id config in
        Ok (mkCreated
              (mkResponse (JDict [("simulation_id", JStr sim_id); ("status", JStr "queued")]) 202)
              (<[sim_id := simulation]> active_simulations)
              (Some simulation))
    end in
  match attempt with
  | Ok r => r
  | Raise e => mkCreated (error_response e 500) active_simulations None
  end.

(** [get_simulation_status] *)
Definition get_simulation_status (now : Q) (sim_id : string)
    (active_simulations : gmap string job) : status_view + response :=
  match active_simulations !! sim_id with
  | Some simulation => inl (get_status now simulation)
  | None => inr (error_response "Simulation not found" 404)
  end.

(** [cancel_simulation] *)
Definition cancel_simulation (sim_id : string) (active_simulations : gmap string job)
  : response * gmap string job :=
  match active_simulations !! sim_id with
  | Some simulation =>
      (mkResponse (JDict [("status", JStr "cancelled")]) 200,
       <[sim_id := apply_event simulation (SetStatus "cancelled")]> active_simulations)
  | None => (error_response "Simulation not found" 404, active_simulations)
  end.

End CFD.

(* ===================================================================== *)
(** ** mesh-server.py *)
(* ===================================================================== *)

Module Mesh.

Definition GEOMETRIES_DIR : path := "/geometries".
Definition MESHES_DIR : path := "/meshes".

(** A [MeshGenerationJob]: the common attributes and the two of its own. *)
Record mesh_job : Type := mkMeshJob {
  base : job;
  geometry_file : string;
  mesh_stats : option (list (string * Z))
}.

(** [MeshGenerationJob.__init__] *)
Definition MeshGenerationJob (job_id geometry_file : string) (config : json) : mesh_job :=
  mkMeshJob (mkJob job_id config "queued" 0 None None None) geometry_file None.

Definition mesh_dir (self : mesh_job) : path := MESHES_DIR // id (base self).
Definition case_dir (self : mesh_job) : path := mesh_dir self // "case".

(** [PurePath.name] and [PurePath.suffix] *)
Definition path_name (p : path) : string :=
  match last (List.filter (fun c => negb (String.eqb c "" || String.eqb c ".")) (split "/" p)) with
  | Some n => n
  | None => ""
  end.

Definition suffix (p : path) : string :=
  let name := path_name p in
  match last (split "." name) with
  | Some ext =>
      if Nat.ltb (String.length ext + 1) (String.length name)
         && negb (String.eqb ext "")
      then "." +:+ ext else ""
  | None => ""
  end.

Definition supported_formats : list string := [".stl"; ".obj"; ".ply"; ".glb"; ".gltf"].

(** [int(s)] on a string: optional sign and decimal digits. *)
Definition int_of_str (s : string) : result Z :=
  let '(neg, digits) := signed (strip s) in
  match digitpart digits with
  | Some (v, _, EmptyString) => Ok (if neg then - v else v)%Z
  | _ => Raise ("invalid literal for int() with base 10: " +:+ s)
  end.

(** [d[k] = v] on a dict kept as an association list. *)
Fixpoint dict_set (k : string) (v : Z) (d : list (string * Z)) : list (string * Z) :=
  match d with
  | (k', v') :: r => if String.eqb k k' then (k, v) :: r else (k', v') :: dict_set k v r
  | [] => [(k, v)]
  end.

(** [int(line.split(':')[1].strip())] *)
Definition stat_value (line : string) : result Z :=
  let+ piece := index (split ":" line) 1 in
  int_of_str (strip piece).

(** The loop of [_parse_mesh_stats]; every successful assignment into
    [self.mesh_stats] is an event. *)
Fixpoint parse_stat_lines (lines : list string) (stats : list (string * Z)) : list event :=
  match lines with
  | line :: rest =>
      let key :=
        if contains "cells:" line then Some "cells"
        else if contains "points:" line then Some "points"
        else if contains "faces:" line then Some "faces"
        else None in
      match key with
      | Some k =>
          match stat_value line with
          | Ok v =>
              let stats' := dict_set k v stats in
              SetMeshStats stats' :: parse_stat_lines rest stats'
          | Raise _ => parse_stat_lines rest stats
          end
      | None => parse_stat_lines rest stats
      end
  | [] => []
  end.

Definition newline : ascii := ascii_of_nat 10.

(** [str(e)] of the [CalledProcessError] of a command that exits with [rc]. *)
Definition called_process_error (rc : Z) : string :=
  "Command returned non-zero exit status " +:+ pretty rc +:+ ".".

Module Job.
Section Methods.

Variable w : world.

(** [MeshGenerationJob._convert_geometry_to_stl] *)
Definition _convert_geometry_to_stl (self : mesh_job) : M unit :=
  let src_file := GEOMETRIES_DIR // geometry_file self in
  let dest_file := case_dir self // "constant" // "triSurface" // "building.stl" in
  if existsb (String.eqb (lower (suffix src_file))) supported_formats then
    io w (LoadGeometry src_file) ;;
    io w (ExportStl dest_file)
  else lift (Raise ("Unsupported geometry format: " +:+ suffix src_file)).

(** [MeshGenerationJob._create_block_mesh_dict]; the arithmetic on the
    bounds of the geometry is an operation of the environment.  (The
    attribute [geometry_bounds] exists whenever this is reached:
    [_convert_geometry_to_stl] has set it or has raised.) *)
Definition _create_block_mesh_dict (self : mesh_job) : M unit :=
  let* _ := lift (py_get (config (base self)) "domain_factor" (JInt 5)) in
  io w (Compute "domain") ;;
  let* _ := lift (py_get (config (base self)) "cell_size" (JFloat (Fin 1))) in
  io w (Compute "cells") ;;
  io w (WriteText (case_dir self // "system" // "blockMeshDict")).

Definition _create_snappy_hex_mesh_dict (self : mesh_job) : M unit :=
  let* _ := lift (py_get (config (base self)) "refinement_level" (JInt 3)) in
  io w (WriteText (case_dir self // "system" // "snappyHexMeshDict")).

Definition _create_mesh_quality_dict (self : mesh_job) : M unit :=
  io w (WriteText (case_dir self // "system" // "meshQualityDict")).

(** [MeshGenerationJob.setup_case] *)
Definition setup_case (self : mesh_job) : M bool :=
  try_except
    (set (SetStatus "setting_up") ;;
     io w (Mkdir (mesh_dir self)) ;;
     io w (Mkdir (case_dir self)) ;;
     io w (Mkdir (case_dir self // "0")) ;;
     io w (Mkdir (case_dir self // "constant")) ;;
     io w (Mkdir (case_dir self // "system")) ;;
     io w (Mkdir (case_dir self // "constant" // "triSurface")) ;;
     _convert_geometry_to_stl self ;;
     _create_block_mesh_dict self ;;
     _create_snappy_hex_mesh_dict self ;;
     _create_mesh_quality_dict self ;;
     set (SetProgress 20) ;;
     ret true)
    (fun e =>
       set (SetError ("Setup failed: " +:+ e)) ;;
       set (SetStatus "failed") ;;
       ret false).

(** [subprocess.run(cmd, capture_output=True, check=True)] *)
Definition run_checked (cmd : list string) : M unit :=
  io w (Spawn cmd None) ;;
  if negb (returncode w cmd =? 0)%Z then
    lift (Raise (called_process_error (returncode w cmd)))
  else ret tt.

(** The [while process.poll() is None] loop of [generate_mesh];
    [start] is [self.start_time]. *)
Fixpoint monitor (start : Q) (obs : list observation) : M unit :=
  match obs with
  | o :: rest =>
      sleep ;;
      set (SetProgress (Z.min (50 + Qtrunc ((obs_time o - start) / 10) * 5) 85)) ;;
      monitor start rest
  | [] => ret tt
  end.

(** [MeshGenerationJob._parse_mesh_stats] *)
Definition _parse_mesh_stats (check_output : string) : M unit :=
  (SetMeshStats [] :: parse_stat_lines (split newline check_output) [], Ok tt).

(** [MeshGenerationJob._copy_mesh] *)
Definition _copy_mesh (self : mesh_job) : M unit :=
  let src_mesh := case_dir self // "constant" // "polyMesh" in
  let dest_mesh := mesh_dir self // "constant" // "polyMesh" in
  if path_exists w src_mesh then io w (CopyTree src_mesh dest_mesh) else ret tt.

(** [MeshGenerationJob.generate_mesh] *)
Definition generate_mesh (self : mesh_job) : M bool :=
  try_except
    (set (SetStatus "generating") ;;
     set (SetStartTime (time_start w)) ;;
     io w (Chdir (case_dir self)) ;;
     set (SetProgress 30) ;;
     run_checked ["blockMesh"] ;;
     set (SetProgress 40) ;;
     run_checked ["surfaceFeatureExtract"] ;;
     set (SetProgress 50) ;;
     let log_file := case_dir self // "log.snappyHexMesh" in
     io w (OpenW log_file) ;;
     io w (Spawn ["snappyHexMesh"; "-overwrite"] None) ;;
     monitor (time_start w) (monitor_obs w) ;;
     if negb (returncode w ["snappyHexMesh"; "-overwrite"] =? 0)%Z then
       set (SetError "snappyHexMesh failed") ;;
       set (SetStatus "failed") ;;
       ret false
     else
       set (SetProgress 90) ;;
       io w (Spawn ["checkMesh"] None) ;;
       _parse_mesh_stats (stdout w ["checkMesh"]) ;;
       _copy_mesh self ;;
       set (SetProgress 100) ;;
       set (SetStatus "completed") ;;
       set (SetEndTime (time_end w)) ;;
       ret true)
    (fun e =>
       set (SetError ("Mesh generation failed: " +:+ e)) ;;
       set (SetStatus "failed") ;;
       ret false).

(** [run_mesh_generation_thread] *)
Definition run_mesh_generation_thread (job : mesh_job) : M unit :=
  let* ok := setup_case job in
  if ok then generate_mesh job ;; ret tt else ret tt.

Definition thread_trace (job : mesh_job) : list event :=
  fst (run_mesh_generation_thread job).

Definition started (job : mesh_job) : shared :=
  mkShared (base job) (thread_trace job).

End Methods.
End Job.

(** The handler [generate_mesh] of [/api/mesh/generate]; [geometry_exists]
    answers [(GEOMETRIES_DIR / geometry_file).exists()]. *)
Definition generate_mesh (geometry_exists : path -> bool) (request_json : json)
    (uuid : string) (mesh_jobs : gmap string mesh_job) : created mesh_job :=
  let attempt :=
    let data := request_json in
    let+ present := py_in "geometry_file" data in
    if negb present then
      Ok (mkCreated (error_response "geometry_file required" 400) mesh_jobs None)
    else
      let+ geometry_file := py_getitem data "geometry_file" in
      let+ config := py_get data "config" (JDict []) in
      let+ name := path_operand geometry_file in
      if negb (geometry_exists (GEOMETRIES_DIR // name)) then
        Ok (mkCreated (error_response "Geometry file not found" 404) mesh_jobs None)
      else
        let job_id := uuid in
        let job := MeshGenerationJob job_id name config in
        Ok (mkCreated
              (mkResponse (JDict [("job_id", JStr job_id); ("status", JStr "queued")]) 202)
              (<[job_id := job]> mesh_jobs)
              (Some job)) in
  match attempt with
  | Ok r => r
  | Raise e => mkCreated (error_response e 500) mesh_jobs None
  end.

(** The key that the [if]/[elif] chain of [_parse_mesh_stats] selects for
    a line of the output of [checkMesh]. *)
Definition stat_key (line : string) : option string :=
  if contains "cells:" line then Some "cells"
  else if contains "points:" line then Some "points"
  else if contains "faces:" line then Some "faces"
  else None.


(** Effect of one event on a mesh job: [SetMeshStats] is the state of
    [self.mesh_stats] after an assignment, the other events act on the
    common attributes. *)
Definition apply_mesh_event (j : mesh_job) (e : event) : mesh_job :=
  match e with
  | SetMeshStats stats => mkMeshJob (base j) (geometry_file j) (Some stats)
  | _ => mkMeshJob (apply_event (base j) e) (geometry_file j) (mesh_stats j)
  end.

Definition apply_mesh_events (j : mesh_job) (t : list event) : mesh_job :=
  fold_left apply_mesh_event t j.

(** The dict that [MeshGenerationJob.get_status] returns. *)
Record status_view : Type := mkView {
  v_id : string;
  v_status : string;
  v_progress : Z;
  v_error : option string;
  v_duration : option Q;
  v_mesh_stats : option (list (string * Z))
}.

(** [if t:] on an attribute that is [None] or a float: [None] and [0.0]
    are false. *)
Definition set_time (t : option Q) : option Q :=
  match t with
  | Some v => if Qis_zero v then None else Some v
  | None => None
  end.

(** [MeshGenerationJob.get_status]; [now] is [time.time()]. *)
Definition get_status (now : Q) (self : mesh_job) : status_view :=
  let duration :=
    match set_time (start_time (base self)) with
    | Some t0 =>
        match set_time (end_time (base self)) with
        | Some t1 => Some (t1 - t0)%Q
        | None => Some (now - t0)%Q
        end
    | None => None
    end in
  mkView (id (base self)) (status (base self)) (progress (base self)) (error (base self))
         duration (mesh_stats self).


(** What [download_mesh] answers: a JSON error, the archive that
    [send_file] serves, or an exception of [tarfile] that leaves the
    handler. *)
Inductive download : Type :=
| Refused (r : response)
| Archive (tar_path added : path) (arcname download_name : string)
| Unhandled (msg : string).

(** [download_mesh]; [tar_raises p] is the message of the exception that
    writing the archive [p] raises, if it does. *)
Definition download_mesh (tar_raises : path -> option string) (job_id : string)
    (mesh_jobs : gmap string mesh_job) : download :=
  match mesh_jobs !! job_id with
  | None => Refused (error_response "Job not found" 404)
  | Some job =>
      if negb (String.eqb (status (base job)) "completed") then
        Refused (error_response "Mesh not ready" 400)
      else
        let tar_path := mesh_dir job // "mesh.tar.gz" in
        match tar_raises tar_path with
        | Some msg => Unhandled msg
        | None =>
            Archive tar_path (mesh_dir job // "constant") "constant"
                    ("mesh_" +:+ job_id +:+ ".tar.gz")
        end
  end.

End Mesh.

(* ===================================================================== *)
(** ** Threads of one server process *)
(* ===================================================================== *)

(** All runner threads of a server live in one process and share its
    current working directory: [os.chdir] changes it for every thread, and
    a child process started without [cwd=] runs in whatever it is at that
    moment. *)
Module Process.

Record launch : Type := mkLaunch {
  by_thread : nat;
  command : list string;
  directory : path
}.

Record proc : Type := mkProc {
  cwd : path;
  threads : list (list event);
  launched : list launch
}.

Definition effect (i : nat) (e : event) (p : proc) : proc :=
  match e with
  | IO (Chdir d) => mkProc d (threads p) (launched p)
  | IO (Spawn cmd None) =>
      mkProc (cwd p) (threads p) (launched p ++ [mkLaunch i cmd (cwd p)])
  | IO (Spawn cmd (Some d)) =>
      mkProc (cwd p) (threads p) (launched p ++ [mkLaunch i cmd d])
  | _ => p
  end.

(** Thread [i] executes its next event. *)
Definition thread_step (p : proc) (i : nat) : proc :=
  match threads p !! i with
  | Some (e :: rest) =>
      effect i e (mkProc (cwd p) (<[i := rest]> (threads p)) (launched p))
  | _ => p
  end.

Definition schedule (p : proc) (order : list nat) : proc := fold_left thread_step order p.

End Process.

(* ===================================================================== *)
(** ** Properties of traces *)
(* ===================================================================== *)

(** The events that assign to an attribute of the shared record. *)
Definition is_write (e : event) : bool :=
  match e with
  | IO _ | SetMeshStats _ => false
  | _ => true
  end.

Definition writes (t : list event) : list event := List.filter is_write t.

(** The two assignments after which a runner does nothing more:
    [self.status = "failed"] and [self.end_time = ...]. *)
Definition is_final (e : event) : bool :=
  match e with
  | SetStatus s => String.eqb s "failed"
  | SetEndTime _ => true
  | _ => false
  end.

(** The events that start an external command. *)
Definition is_spawn (e : event) : bool :=
  match e with
  | IO (Spawn _ _) => true
  | _ => false
  end.

Definition no_spawn (t : list event) : bool := forallb (fun e => negb (is_spawn e)) t.

(** A final assignment, if there is one, is the last event. *)
Fixpoint final_last (t : list event) : bool :=
  match t with
  | e :: r => if is_final e then match r with [] => true | _ => false end else final_last r
  | [] => true
  end.

(** [l] never goes down, starting from [p]. *)
Fixpoint nondecreasing (p : Z) (l : list Z) : Prop :=
  match l with
  | x :: r => (p <= x)%Z /\ nondecreasing x r
  | [] => True
  end.

(** Two records that differ at most in [status]. *)
Definition same_but_status (a b : job) : Prop :=
  id a = id b /\ config a = config b /\ progress a = progress b /\
  start_time a = start_time b /\ end_time a = end_time b /\ error a = error b.

(** The status values a mesh job takes. *)
Definition mesh_statuses : list string :=
  ["queued"; "setting_up"; "generating"; "completed"; "failed"].

(** The assignments of [run_simulation] up to the end of monitoring, and up
    to the start of post-processing, given the progress values [ks] that the
    monitoring loop wrote. *)
Definition sim_running (t0 : Q) (ks : list Z) : list event :=
  [SetStatus "running"; SetStartTime t0; SetProgress 40; SetProgress 45; SetProgress 50]
  ++ map SetProgress ks.

Definition sim_fail_points (t0 : Q) (ks : list Z) : list (list event) :=
  [ [SetStatus "running"; SetStartTime t0; SetProgress 40];
    [SetStatus "running"; SetStartTime t0; SetProgress 40; SetProgress 45];
    sim_running t0 [];
    sim_running t0 ks;
    sim_running t0 ks ++ [SetProgress 90; SetStatus "post_processing"] ].

(** The sequences of assignments a simulation's runner can perform. *)
Inductive sim_lifecycle (t0 t1 : Q) (ks : list Z) : list event -> Prop :=
| sim_setup_failed (m : string) :
    sim_lifecycle t0 t1 ks
      [SetStatus "setting_up"; SetError ("Setup failed: " +:+ m); SetStatus "failed"]
| sim_run_failed (pre : list event) (e : string) :
    In pre (sim_fail_points t0 ks) ->
    sim_lifecycle t0 t1 ks
      ([SetStatus "setting_up"; SetProgress 20] ++ pre ++ [SetError e; SetStatus "failed"])
| sim_completed :
    sim_lifecycle t0 t1 ks
      ([SetStatus "setting_up"; SetProgress 20] ++ sim_running t0 ks ++
       [SetProgress 90; SetStatus "post_processing";
        SetProgress 100; SetStatus "completed"; SetEndTime t1]).

Definition mesh_running (t0 : Q) (ks : list Z) : list event :=
  [SetStatus "generating"; SetStartTime t0; SetProgress 30; SetProgress 40; SetProgress 50]
  ++ map SetProgress ks.

Definition mesh_fail_points (t0 : Q) (ks : list Z) : list (list event) :=
  [ [SetStatus "generating"; SetStartTime t0];
    [SetStatus "generating"; SetStartTime t0; SetProgress 30];
    [SetStatus "generating"; SetStartTime t0; SetProgress 30; SetProgress 40];
    mesh_running t0 [];
    mesh_running t0 ks;
    mesh_running t0 ks ++ [SetProgress 90] ].

(** The sequences of assignments a mesh job's runner can perform. *)
Inductive mesh_lifecycle (t0 t1 : Q) (ks : list Z) : list event -> Prop :=
| mesh_setup_failed (m : string) :
    mesh_lifecycle t0 t1 ks
      [SetStatus "setting_up"; SetError ("Setup failed: " +:+ m); SetStatus "failed"]
| mesh_run_failed (pre : list event) (e : string) :
    In pre (mesh_fail_points t0 ks) ->
    mesh_lifecycle t0 t1 ks
      ([SetStatus "setting_up"; SetProgress 20] ++ pre ++ [SetError e; SetStatus "failed"])
| mesh_completed :
    mesh_lifecycle t0 t1 ks
      ([SetStatus "setting_up"; SetProgress 20] ++ mesh_running t0 ks ++
       [SetProgress 90; SetProgress 100; SetStatus "completed"; SetEndTime t1]).






(** The working directory of the process after the events [t], when it was
    [cwd] before. *)
Fixpoint cwd_after (cwd : path) (t : list event) : path :=
  match t with
  | IO (Chdir d) :: r => cwd_after d r
  | _ :: r => cwd_after cwd r
  | [] => cwd
  end.

(** Every command that [t] starts runs in [dir], when the working
    directory of the process is [cwd] at the start and nothing else
    changes it. *)
Fixpoint launches_in (dir cwd : path) (t : list event) : bool :=
  match t with
  | IO (Chdir d) :: r => launches_in dir d r
  | IO (Spawn _ None) :: r => String.eqb cwd dir && launches_in dir cwd r
  | IO (Spawn _ (Some d)) :: r => String.eqb d dir && launches_in dir cwd r
  | _ :: r => launches_in dir cwd r
  | [] => true
  end.

(** The events of [t] that come after the first assignment
    [self.status = s], if there is one. *)
Fixpoint after_status (s : string) (t : list event) : option (list event) :=
  match t with
  | SetStatus s' :: r => if String.eqb s' s then Some r else after_status s r
  | _ :: r => after_status s r
  | [] => None
  end.

Fixpoint same_command (a b : list string) : bool :=
  match a, b with
  | x :: a', y :: b' => String.eqb x y && same_command a' b'
  | [], [] => true
  | _, _ => false
  end.

(** The environment [w] with another exit code for the command [cmd]. *)
Definition with_returncode (w : world) (cmd : list string) (rc : Z) : world :=
  mkWorld (raises w) (path_exists w) (iterdir w)
          (fun c => if same_command c cmd then rc else returncode w c)
          (stdout w) (time_start w) (time_end w) (monitor_obs w).

(** The runner of a mesh job gets as far as starting [blockMesh]. *)
Definition mesher_prepared (w : world) (job : Mesh.mesh_job) : Prop :=
  snd (Mesh.Job.setup_case w job) = Ok true /\
  raises w (Chdir (Mesh.case_dir job)) = None /\
  raises w (Spawn ["blockMesh"] None) = None.

(** The runner of a mesh job gets as far as starting [snappyHexMesh]: the
    two commands before it exit with code 0. *)
Definition mesher_launched (w : world) (job : Mesh.mesh_job) : Prop :=
  mesher_prepared w job /\
  returncode w ["blockMesh"] = 0%Z /\
  raises w (Spawn ["surfaceFeatureExtract"] None) = None /\
  returncode w ["surfaceFeatureExtract"] = 0%Z /\
  raises w (OpenW (Mesh.case_dir job // "log.snappyHexMesh")) = None /\
  raises w (Spawn ["snappyHexMesh"; "-overwrite"] None) = None.

(** The events of a [setup_case]: assignments to status, progress and
    error, and file operations. *)
Definition is_setup_event (e : event) : bool :=
  match e with
  | SetStatus _ | SetProgress _ | SetError _ => true
  | IO (Mkdir _) | IO (WriteText _) | IO (CopyTree _ _)
  | IO (LoadGeometry _) | IO (ExportStl _) | IO (Compute _) => true
  | _ => false
  end.

(** The events of a monitoring loop. *)
Definition is_monitor_event (e : event) : bool :=
  match e with
  | SetProgress _ | IO Sleep => true
  | _ => false
  end.

(** The states of [self.mesh_stats] after each assignment, in order. *)
Definition stats_writes (t : list event) : list (list (string * Z)) :=
  flat_map (fun e => match e with SetMeshStats s => [s] | _ => [] end) t.

(** [e] is not a [shutil.copytree], or it is one into [dst]. *)
Definition copies_tree_to (dst : path) (e : event) : bool :=
  match e with
  | IO (CopyTree _ d) => String.eqb d dst
  | _ => true
  end.


(** [c] does not occur in [s]. *)
Fixpoint lacks (c : ascii) (s : string) : bool :=
  match s with
  | String x r => negb (Ascii.eqb x c) && lacks c r
  | EmptyString => true
  end.

(** What the record [final] of a job looks like when its runner has
    returned: either everything went through, or the job is failed with
    an error message, no end time and a progress below 100. *)
Definition finished (t0 t1 : Q) (start final : job) : Prop :=
  final = mkJob (id start) (config start) "completed" 100 (Some t0) (Some t1) None \/
  (status final = "failed" /\ error final <> None /\ end_time final = None /\
   (start_time final = None \/ start_time final = Some t0) /\
   (progress final <= 90)%Z /\ id final = id start /\ config final = config start).

(* ===================================================================== *)
(** ** Scenarios *)
(* ===================================================================== *)

Module Scenario.

Definition no_error : io_op -> option string := fun _ => None.

Definition case_listing : list (string * bool) :=
  [("0", true); ("100", true); ("constant", true); ("system", true);
   ("log.simpleFoam", false)].

(** Every operation succeeds, every path exists, every command exits 0;
    the solver is seen running twice. *)
Definition calm : world :=
  mkWorld no_error (fun _ => true) (fun _ => Ok case_listing)
    (fun _ => 0%Z) (fun _ => "") 10 20
    [mkObs (Ok ["Starting"; "Time = 100"]) 12; mkObs (Ok ["Time = 100"; "Time = 600"]) 17].

Definition sim_config : json :=
  JDict [("wind_speed", JInt 12); ("mesh_id", JStr "m1")].

Definition sim : job := CFD.CFDSimulation "s1" sim_config.









(** A mesh job on [box.stl]; the mesher is seen running three times. *)
Definition box : Mesh.mesh_job :=
  Mesh.MeshGenerationJob "j1" "box.stl" (JDict [("refinement_level", JInt 2)]).

Definition meshing : world :=
  mkWorld no_error (fun _ => true) (fun _ => Ok [])
    (fun _ => 0%Z) (fun _ => "cells: 4096") 10 60
    [mkObs (Ok []) 12; mkObs (Ok []) 24; mkObs (Ok []) 47].


(** Two simulations started one after the other in the same server. *)
Definition sim_a : job := CFD.CFDSimulation "a" sim_config.
Definition sim_b : job := CFD.CFDSimulation "b" sim_config.

Definition two_runners : Process.proc :=
  Process.mkProc "/app" [CFD.thread_trace calm sim_a; CFD.thread_trace calm sim_b] [].

(** As [calm], but [checkMesh] exits with code 1. *)
Definition mesh_check_fails : world :=
  mkWorld no_error (fun _ => true) (fun _ => Ok case_listing)
    (fun cmd => if same_command cmd ["checkMesh"] then 1%Z else 0%Z) (fun _ => "") 10 20 [].




(** The statistics block that [checkMesh] prints. *)
Definition mesh_report : string :=
  "Mesh stats" +:+ String Mesh.newline
  ("    points:           1681" +:+ String Mesh.newline
  ("    internal points:  0" +:+ String Mesh.newline
  ("    faces:            3200" +:+ String Mesh.newline
  ("    internal faces:   1520" +:+ String Mesh.newline
  ("    cells:            800" +:+ String Mesh.newline
  ("    faces per cell:   5.9" +:+ String Mesh.newline
  ("    boundary patches: 3" +:+ String Mesh.newline ""))))))).

(** As [meshing], but [blockMesh] exits with code 1. *)
Definition block_mesh_fails : world :=
  mkWorld no_error (fun _ => true) (fun _ => Ok [])
    (fun cmd => if same_command cmd ["blockMesh"] then 1%Z else 0%Z) (fun _ => "") 10 60 [].

(** As [meshing], but [snappyHexMesh] exits with code 1 after two rounds
    of monitoring. *)
Definition snappy_fails : world :=
  mkWorld no_error (fun _ => true) (fun _ => Ok [])
    (fun cmd => if same_command cmd ["snappyHexMesh"; "-overwrite"] then 1%Z else 0%Z)
    (fun _ => "") 10 60 [mkObs (Ok []) 12; mkObs (Ok []) 24].

(** As [meshing], with the output of [checkMesh] being [mesh_report]. *)
Definition meshing_report : world :=
  mkWorld no_error (fun _ => true) (fun _ => Ok [])
    (fun _ => 0%Z) (fun _ => mesh_report) 10 60 [mkObs (Ok []) 12].

End Scenario.

(* ===================================================================== *)
(** ** Lemmas on traces *)
(* ===================================================================== *)

Arguments path_join : simpl never.
Arguments CFD.case_dir : simpl never.
Arguments CFD.result_dir : simpl never.
Arguments Mesh.case_dir : simpl never.
Arguments Mesh.mesh_dir : simpl never.
Arguments py_get : simpl never.
Arguments path_join_json : simpl never.
Arguments truthy : simpl never.
Arguments String.append : simpl never.
Arguments Mesh.called_process_error : simpl never.
Arguments CFD._parse_log_progress : simpl never.
Arguments py_int : simpl never.
Arguments fmul : simpl never.
Arguments Qtrunc : simpl never.

Lemma writes_app (a b : list event) : writes (a ++ b) = writes a ++ writes b.
Proof. apply List.filter_app. Qed.

Lemma status_writes_app (a b : list event) :
  status_writes (a ++ b) = status_writes a ++ status_writes b.
Proof. apply flat_map_app. Qed.

Lemma progress_writes_app (a b : list event) :
  progress_writes (a ++ b) = progress_writes a ++ progress_writes b.
Proof. apply flat_map_app. Qed.

Lemma status_writes_writes (t : list event) : status_writes (writes t) = status_writes t.
Proof.
  unfold status_writes, writes.
  induction t as [|e t IH]; [reflexivity|].
  destruct e; cbn; congruence.
Qed.

Lemma progress_writes_writes (t : list event) : progress_writes (writes t) = progress_writes t.
Proof.
  unfold progress_writes, writes.
  induction t as [|e t IH]; [reflexivity|].
  destruct e; cbn; congruence.
Qed.

Lemma status_writes_progress (ks : list Z) : status_writes (map SetProgress ks) = [].
Proof. induction ks; [reflexivity | assumption]. Qed.

Lemma progress_writes_progress (ks : list Z) : progress_writes (map SetProgress ks) = ks.
Proof.
  unfold progress_writes.
  induction ks as [|k ks IH]; [reflexivity | cbn; congruence].
Qed.

Lemma apply_events_app (j : job) (a b : list event) :
  apply_events j (a ++ b) = apply_events (apply_events j a) b.
Proof. apply fold_left_app. Qed.

Lemma apply_events_writes (j : job) (t : list event) :
  apply_events j (writes t) = apply_events j t.
Proof.
  unfold apply_events, writes.
  revert j; induction t as [|e t IH]; intros j; [reflexivity|].
  destruct e; cbn; apply IH.
Qed.

Lemma apply_events_quiet (j : job) (t : list event) : writes t = [] -> apply_events j t = j.
Proof. intros H. now rewrite <- apply_events_writes, H. Qed.

Lemma last_cons_default {A} (l : list A) (x d : A) : List.last (x :: l) d = List.last l x.
Proof.
  revert x d; induction l as [|y l IH]; intros x d; [reflexivity|].
  change (List.last (y :: l) d = List.last (y :: l) x). now rewrite !IH.
Qed.

(** The record after a trace: each attribute holds the last value assigned
    to it. *)
Lemma progress_apply_events (j : job) (t : list event) :
  progress (apply_events j t) = List.last (progress_writes t) (progress j).
Proof.
  revert j; induction t as [|e t IH]; intros j; [reflexivity|].
  change (apply_events j (e :: t)) with (apply_events (apply_event j e) t).
  rewrite IH. destruct e; try reflexivity.
  change (progress_writes (SetProgress n :: t)) with (n :: progress_writes t).
  now rewrite last_cons_default.
Qed.

Lemma status_apply_events (j : job) (t : list event) :
  status (apply_events j t) = List.last (status_writes t) (status j).
Proof.
  revert j; induction t as [|e t IH]; intros j; [reflexivity|].
  change (apply_events j (e :: t)) with (apply_events (apply_event j e) t).
  rewrite IH. destruct e; try reflexivity.
  change (status_writes (SetStatus s :: t)) with (s :: status_writes t).
  now rewrite last_cons_default.
Qed.

Lemma status_written (j : job) (t : list event) (s : string) :
  status (apply_events j t) = s -> s = status j \/ In (SetStatus s) t.
Proof.
  revert j; induction t as [|e t IH]; intros j H; [left; now symmetry|].
  change (apply_events j (e :: t)) with (apply_events (apply_event j e) t) in H.
  destruct (IH _ H) as [E | E]; [| right; now right].
  destruct e; cbn in E; auto. right; left; congruence.
Qed.

Lemma end_time_written (j : job) (t : list event) :
  end_time j = None -> end_time (apply_events j t) <> None ->
  exists t1, In (SetEndTime t1) t.
Proof.
  revert j; induction t as [|e t IH]; intros j H0 H; [now elim H|].
  change (apply_events j (e :: t)) with (apply_events (apply_event j e) t) in H.
  destruct e as [| | | |tend| |];
    try (eapply IH in H; [destruct H as [t1 ?]; exists t1; now right | exact H0]).
  exists tend; now left.
Qed.

Lemma same_but_status_apply (a b : job) (t : list event) :
  same_but_status a b -> same_but_status (apply_events a t) (apply_events b t).
Proof.
  revert a b; induction t as [|e t IH]; intros a b H; [exact H|].
  apply IH. destruct H as (?&?&?&?&?&?).
  destruct e; cbn; repeat split; auto.
Qed.

Lemma status_apply_either (a b : job) (t : list event) :
  status (apply_events a t) = status (apply_events b t) \/
  status (apply_events a t) = status a.
Proof.
  rewrite !status_apply_events.
  destruct (status_writes t) as [|s l] eqn:E; [now right|left].
  now rewrite !last_cons_default.
Qed.


(** *** final_last and nondecreasing *)

Lemma final_last_app (a b : list event) :
  forallb (fun e => negb (is_final e)) a = true -> final_last (a ++ b) = final_last b.
Proof.
  induction a as [|e a IH]; [reflexivity|].
  cbn. destruct (is_final e); [discriminate|]. exact IH.
Qed.

Lemma no_final_progress (ks : list Z) :
  forallb (fun e => negb (is_final e)) (map SetProgress ks) = true.
Proof. induction ks; [reflexivity | assumption]. Qed.

(** Once a final assignment is among the executed events, nothing is left
    to assign. *)
Lemma final_last_split (a b : list event) (e : event) :
  final_last (a ++ b) = true -> In e a -> is_final e = true -> b = [].
Proof.
  induction a as [|x a IH]; intros H Hin He; [destruct Hin|].
  cbn in H. destruct Hin as [-> | Hin].
  - rewrite He in H. destruct a; [|discriminate]. destruct b; [reflexivity | discriminate].
  - destruct (is_final x); [destruct (a ++ b) eqn:E; [|discriminate]|].
    + now apply app_eq_nil in E.
    + now apply IH.
Qed.

Lemma nondecreasing_weaken (p q : Z) (l : list Z) :
  (p <= q)%Z -> nondecreasing q l -> nondecreasing p l.
Proof. destruct l; cbn; [trivial | intros ? [? ?]; split; [lia | assumption]]. Qed.




(** *** What each method assigns *)

Ltac run_step :=
  match goal with
  | |- context [raises ?w ?op] => destruct (raises w op) eqn:?
  | |- context [py_get ?c ?k ?d] => destruct (py_get c k d) eqn:?
  | |- context [truthy ?v] => destruct (truthy v) eqn:?
  | |- context [path_join_json ?a ?b] => destruct (path_join_json a b) eqn:?
  | |- context [path_exists ?w ?p] => destruct (path_exists w p) eqn:?
  | |- context [iterdir ?w ?p] => destruct (iterdir w p) eqn:?
  | |- context [(returncode ?w ?c =? 0)%Z] => destruct (returncode w c =? 0)%Z eqn:?
  end; cbn.

Ltac unfold_cfd :=
  unfold CFD.run_simulation_thread, CFD.run_simulation, CFD.setup_case,
    CFD._create_boundary_conditions, CFD._create_transport_properties,
    CFD._create_turbulence_properties, CFD._create_control_dict, CFD._create_fv_schemes,
    CFD._create_fv_solution, CFD._post_process, CFD._sample_fields, CFD._extract_forces,
    CFD._get_latest_time, CFD.copy_fields, io, lift, set, ret, try_except, bind.

Lemma setup_case_writes (w : world) (sim : job) :
  no_spawn (fst (CFD.setup_case w sim)) = true /\
  ((snd (CFD.setup_case w sim) = Ok true /\
    writes (fst (CFD.setup_case w sim)) = [SetStatus "setting_up"; SetProgress 20]) \/
   (exists m, snd (CFD.setup_case w sim) = Ok false /\
    writes (fst (CFD.setup_case w sim)) =
      [SetStatus "setting_up"; SetError ("Setup failed: " +:+ m); SetStatus "failed"])).
Proof.
  unfold_cfd. cbn. repeat run_step.
  all: split; [reflexivity|].
  all: first [left; split; reflexivity | right; eexists; split; reflexivity].
Qed.

Lemma post_process_quiet (w : world) (sim : job) : writes (fst (CFD._post_process w sim)) = [].
Proof.
  unfold_cfd. cbn. repeat run_step.
  all: try reflexivity.
  all: destruct (CFD.sort_reverse _) as [|[? name] ?]; cbn; try reflexivity.
  all: destruct (String.eqb name ""); cbn; try reflexivity.
  all: repeat run_step; reflexivity.
Qed.

Lemma monitor_writes (sim : job) (obs : list observation) :
  writes (fst (CFD.monitor sim obs)) =
  map SetProgress (progress_writes (fst (CFD.monitor sim obs))).
Proof.
  induction obs as [|o obs IH]; [reflexivity|].
  cbn [CFD.monitor]. unfold sleep, lift, set, bind.
  destruct (CFD._parse_log_progress sim (obs_log o)) as [v|]; [|reflexivity].
  destruct (py_int (fmul v (Fin 0.4))) as [k|]; [|reflexivity].
  destruct (CFD.monitor sim obs) as [t [[]|]]; cbn in *; now rewrite IH.
Qed.

Ltac fail_point pts i :=
  left; exists (nth i pts []); eexists; split;
  [cbn; auto 10 | cbn; rewrite <- ?app_assoc; reflexivity].

Ltac some_fail_point pts :=
  first [ fail_point pts 0%nat | fail_point pts 1%nat | fail_point pts 2%nat
        | fail_point pts 3%nat | fail_point pts 4%nat | fail_point pts 5%nat ].

Lemma run_simulation_writes (w : world) (sim : job) :
  let ks := progress_writes (fst (CFD.monitor sim (monitor_obs w))) in
  let ws := writes (fst (CFD.run_simulation w sim)) in
  (exists pre e, In pre (sim_fail_points (time_start w) ks) /\
                 ws = pre ++ [SetError e; SetStatus "failed"]) \/
  ws = sim_running (time_start w) ks ++
       [SetProgress 90; SetStatus "post_processing";
        SetProgress 100; SetStatus "completed"; SetEndTime (time_end w)].
Proof.
  intros ks ws. subst ks ws.
  pose proof (monitor_writes sim (monitor_obs w)) as HK.
  pose proof (post_process_quiet w sim) as HP.
  unfold CFD.run_simulation, io, lift, set, ret, try_except, bind. cbn.
  destruct (CFD.monitor sim (monitor_obs w)) as [t [[]|]];
    destruct (CFD._post_process w sim) as [t' [[]|]]; cbn in HK, HP.
  all: repeat run_step.
  all: unfold writes in *; cbn;
    repeat (first [rewrite List.filter_app | rewrite HK | rewrite HP]; cbn).
  all: first [ right; reflexivity
             | some_fail_point (sim_fail_points (time_start w) (progress_writes t)) ].
Qed.

(** The assignments of a simulation's runner follow [sim_lifecycle]. *)
Lemma sim_thread_lifecycle (w : world) (sim : job) :
  sim_lifecycle (time_start w) (time_end w)
    (progress_writes (fst (CFD.monitor sim (monitor_obs w))))
    (writes (CFD.thread_trace w sim)).
Proof.
  unfold CFD.thread_trace, CFD.run_simulation_thread.
  pose proof (run_simulation_writes w sim) as HR. cbn zeta in HR.
  destruct (setup_case_writes w sim) as [_ [[Hr Hw] | [m [Hr Hw]]]];
    destruct (CFD.setup_case w sim) as [ts rs]; cbn [fst snd] in Hr, Hw; subst rs.
  - destruct (CFD.run_simulation w sim) as [tr [b|e]]; cbn [fst snd] in HR; cbn [bind ret fst snd].
    all: rewrite ?app_nil_r, writes_app, Hw.
    all: destruct HR as [(pre & e' & Hin & ->) | ->]; [now apply sim_run_failed | apply sim_completed].
  - cbn [bind ret fst snd]. rewrite app_nil_r, Hw. apply sim_setup_failed.
Qed.

(** *** Consequences of the life cycles *)

Ltac norm_trace :=
  unfold sim_running, mesh_running;
  rewrite ?status_writes_app, ?progress_writes_app, ?status_writes_progress,
    ?progress_writes_progress;
  cbn [status_writes progress_writes flat_map app map].

Ltac each_point H :=
  cbn [sim_fail_points mesh_fail_points In] in H;
  repeat (destruct H as [<- | H]); [.. | destruct H].

Lemma sim_lifecycle_statuses t0 t1 ks ws :
  sim_lifecycle t0 t1 ks ws -> Forall (fun s => In s job_statuses) (status_writes ws).
Proof.
  intros [m | pre e Hin |]; [| each_point Hin |].
  all: norm_trace; rewrite ?status_writes_app, ?status_writes_progress; cbn.
  all: repeat (apply List.Forall_cons; [cbn; auto 10|]); apply List.Forall_nil.
Qed.

Lemma sim_lifecycle_completed t0 t1 ks ws :
  sim_lifecycle t0 t1 ks ws -> In "completed" (status_writes ws) ->
  status_writes ws = ["setting_up"; "running"; "post_processing"; "completed"].
Proof.
  intros [m | pre e Hin |]; [| each_point Hin |].
  all: norm_trace; rewrite ?status_writes_app, ?status_writes_progress; cbn.
  all: intros H; try reflexivity.
  all: repeat (destruct H as [H | H]; [discriminate H|]); destruct H.
Qed.

Lemma sim_lifecycle_final t0 t1 ks ws : sim_lifecycle t0 t1 ks ws -> final_last ws = true.
Proof.
  intros [m | pre e Hin |]; [| each_point Hin |].
  all: unfold sim_running; cbn; rewrite <- ?app_assoc;
    rewrite ?(final_last_app (map SetProgress ks)) by apply no_final_progress;
    reflexivity.
Qed.

Lemma mesh_lifecycle_final t0 t1 ks ws : mesh_lifecycle t0 t1 ks ws -> final_last ws = true.
Proof.
  intros [m | pre e Hin |]; [| each_point Hin |].
  all: unfold mesh_running; cbn; rewrite <- ?app_assoc;
    rewrite ?(final_last_app (map SetProgress ks)) by apply no_final_progress;
    reflexivity.
Qed.


Lemma mesh_lifecycle_statuses t0 t1 ks ws :
  mesh_lifecycle t0 t1 ks ws -> Forall (fun s => In s mesh_statuses) (status_writes ws).
Proof.
  intros [m | pre e Hin |]; [| each_point Hin |].
  all: norm_trace; rewrite ?status_writes_app, ?status_writes_progress; cbn.
  all: repeat (apply List.Forall_cons; [cbn; auto 10|]); apply List.Forall_nil.
Qed.

Lemma mesh_lifecycle_completed t0 t1 ks ws :
  mesh_lifecycle t0 t1 ks ws -> In "completed" (status_writes ws) ->
  status_writes ws = ["setting_up"; "generating"; "completed"].
Proof.
  intros [m | pre e Hin |]; [| each_point Hin |].
  all: norm_trace; rewrite ?status_writes_app, ?status_writes_progress; cbn.
  all: intros H; try reflexivity.
  all: repeat (destruct H as [H | H]; [discriminate H|]); destruct H.
Qed.


Ltac unfold_mesh :=
  unfold Mesh.Job.run_mesh_generation_thread, Mesh.Job.generate_mesh, Mesh.Job.setup_case,
    Mesh.Job._convert_geometry_to_stl, Mesh.Job._create_block_mesh_dict,
    Mesh.Job._create_snappy_hex_mesh_dict, Mesh.Job._create_mesh_quality_dict,
    Mesh.Job.run_checked, Mesh.Job._copy_mesh, Mesh.Job._parse_mesh_stats,
    io, lift, set, ret, try_except, bind.

Lemma mesh_setup_case_writes (w : world) (job : Mesh.mesh_job) :
  no_spawn (fst (Mesh.Job.setup_case w job)) = true /\
  ((snd (Mesh.Job.setup_case w job) = Ok true /\
    writes (fst (Mesh.Job.setup_case w job)) = [SetStatus "setting_up"; SetProgress 20]) \/
   (exists m, snd (Mesh.Job.setup_case w job) = Ok false /\
    writes (fst (Mesh.Job.setup_case w job)) =
      [SetStatus "setting_up"; SetError ("Setup failed: " +:+ m); SetStatus "failed"])).
Proof.
  unfold_mesh. cbn -[existsb].
  match goal with |- context [existsb ?f ?l] => destruct (existsb f l) end;
    cbn; repeat run_step.
  all: split; [reflexivity|].
  all: first [left; split; reflexivity | right; eexists; split; reflexivity].
Qed.

Lemma parse_stat_lines_quiet (lines : list string) (stats : list (string * Z)) :
  writes (Mesh.parse_stat_lines lines stats) = [].
Proof.
  revert stats; induction lines as [|line lines IH]; intros stats; [reflexivity|].
  cbn [Mesh.parse_stat_lines].
  destruct (contains "cells:" line); [|destruct (contains "points:" line);
    [|destruct (contains "faces:" line)]].
  all: try destruct (Mesh.stat_value line); cbn; apply IH.
Qed.

Lemma mesh_monitor_writes (start : Q) (obs : list observation) :
  writes (fst (Mesh.Job.monitor start obs)) =
  map SetProgress (progress_writes (fst (Mesh.Job.monitor start obs))).
Proof.
  induction obs as [|o obs IH]; [reflexivity|].
  cbn [Mesh.Job.monitor]. unfold sleep, lift, set, bind.
  destruct (Mesh.Job.monitor start obs) as [t [[]|]]; cbn in *; now rewrite IH.
Qed.

Lemma generate_mesh_writes (w : world) (job : Mesh.mesh_job) :
  let ks := progress_writes (fst (Mesh.Job.monitor (time_start w) (monitor_obs w))) in
  let ws := writes (fst (Mesh.Job.generate_mesh w job)) in
  (exists pre e, In pre (mesh_fail_points (time_start w) ks) /\
                 ws = pre ++ [SetError e; SetStatus "failed"]) \/
  ws = mesh_running (time_start w) ks ++
       [SetProgress 90; SetProgress 100; SetStatus "completed"; SetEndTime (time_end w)].
Proof.
  intros ks ws. subst ks ws.
  pose proof (mesh_monitor_writes (time_start w) (monitor_obs w)) as HK.
  pose proof (parse_stat_lines_quiet (split Mesh.newline (stdout w ["checkMesh"])) []) as HP.
  unfold_mesh. cbn.
  destruct (Mesh.Job.monitor (time_start w) (monitor_obs w)) as [t [[]|]]; cbn in HK.
  all: repeat run_step.
  all: unfold writes in *; cbn;
    repeat (first [rewrite List.filter_app | rewrite HK | rewrite HP]; cbn).
  all: first [ right; reflexivity
             | some_fail_point (mesh_fail_points (time_start w) (progress_writes t)) ].
Qed.

(** The assignments of a mesh job's runner follow [mesh_lifecycle]. *)
Lemma mesh_thread_lifecycle (w : world) (job : Mesh.mesh_job) :
  mesh_lifecycle (time_start w) (time_end w)
    (progress_writes (fst (Mesh.Job.monitor (time_start w) (monitor_obs w))))
    (writes (Mesh.Job.thread_trace w job)).
Proof.
  unfold Mesh.Job.thread_trace, Mesh.Job.run_mesh_generation_thread.
  pose proof (generate_mesh_writes w job) as HR. cbn zeta in HR.
  destruct (mesh_setup_case_writes w job) as [_ [[Hr Hw] | [m [Hr Hw]]]];
    destruct (Mesh.Job.setup_case w job) as [ts rs]; cbn [fst snd] in Hr, Hw; subst rs.
  - destruct (Mesh.Job.generate_mesh w job) as [tr [b|e]]; cbn [fst snd] in HR;
      cbn [bind ret fst snd].
    all: rewrite ?app_nil_r, writes_app, Hw.
    all: destruct HR as [(pre & e' & Hin & ->) | ->];
      [now apply mesh_run_failed | apply mesh_completed].
  - cbn [bind ret fst snd]. rewrite app_nil_r, Hw. apply mesh_setup_failed.
Qed.

(** *** One job among its runner and its clients *)


Lemma same_but_status_trans (a b c : job) :
  same_but_status a b -> same_but_status b c -> same_but_status a c.
Proof. unfold same_but_status. intuition congruence. Qed.

Lemma same_but_status_cancel (j : job) :
  same_but_status (apply_event j (SetStatus "cancelled")) j.
Proof. repeat split. Qed.

(** Whatever the clients do, the runner has executed a prefix [done] of
    its events; the record holds what these assigned, except that [status]
    may hold the ["cancelled"] of a cancel request instead. *)
Lemma run_split (sched : list action) (s : shared) :
  exists done : list event,
    pending s = done ++ pending (run s sched) /\
    same_but_status (record (run s sched)) (apply_events (record s) done) /\
    (status (record (run s sched)) = status (apply_events (record s) done) \/
     status (record (run s sched)) = "cancelled").
Proof.
  revert s; induction sched as [|a sched IH]; intros s.
  { exists []. repeat split. now left. }
  change (run s (a :: sched)) with (run (step s a) sched).
  destruct (IH (step s a)) as (d & Hp & Hs & Hst).
  destruct a; cbn [step] in *.
  - destruct (pending s) as [|e rest] eqn:E.
    + exists d. rewrite E in *. auto.
    + exists (e :: d). cbn [record pending] in *.
      split; [cbn; congruence | split; assumption].
  - exists d. auto.
  - exists d. cbn [record pending] in *. split; [assumption|]. split.
    + eapply same_but_status_trans; [exact Hs|].
      apply same_but_status_apply, same_but_status_cancel.
    + destruct Hst as [Hst | Hst]; [|now right].
      destruct (status_apply_either (apply_event (record s) (SetStatus "cancelled"))
                  (record s) d) as [H | H]; rewrite Hst, H; auto.
Qed.

(** Without a cancel request the record holds exactly what the runner
    assigned. *)
Lemma run_split_no_cancel (sched : list action) (s : shared) :
  ~ In Cancel sched ->
  exists done : list event,
    pending s = done ++ pending (run s sched) /\
    record (run s sched) = apply_events (record s) done.
Proof.
  revert s; induction sched as [|a sched IH]; intros s Hn.
  { exists []. now split. }
  change (run s (a :: sched)) with (run (step s a) sched).
  destruct (IH (step s a)) as (d & Hp & Hs); [intros H; apply Hn; now right|].
  destruct a; cbn [step] in *.
  - destruct (pending s) as [|e rest] eqn:E.
    + exists d. rewrite E in *. auto.
    + exists (e :: d). cbn [record pending] in *.
      split; [cbn; congruence | assumption].
  - exists d. auto.
  - elim Hn. now left.
Qed.

(** *** Arithmetic of the two progress formulas *)

Lemma Qtrunc_fraction (q : Q) : (0 <= q)%Q -> (q <= 1)%Q -> Qtrunc (q * 0.4) = 0%Z.
Proof.
  destruct q as [n d]. unfold Qle, Qtrunc. cbn. intros H0 H1.
  apply Z.quot_small. lia.
Qed.



(** The value of [min(current_time / end_time, 1.0)] is never above 1. *)
Lemma py_min_capped (x : pyfloat) : flt (Fin 1) (py_min x (Fin 1)) = false.
Proof. unfold py_min. destruct (flt (Fin 1) x) eqn:E; [reflexivity | exact E]. Qed.

Lemma parse_log_progress_capped (sim : job) (file : result (list string)) :
  exists v, CFD._parse_log_progress sim file = Ok v /\ flt (Fin 1) v = false.
Proof.
  unfold CFD._parse_log_progress, rcatch, rbind.
  destruct file as [lines|]; [|eexists; split; reflexivity].
  destruct (last _) as [cur|]; [|eexists; split; reflexivity].
  destruct (py_get _ _ _) as [e|]; [|eexists; split; reflexivity].
  destruct (truediv cur e) as [r|]; [|eexists; split; reflexivity].
  eexists; split; [reflexivity | apply py_min_capped].
Qed.






Lemma in_status_writes (s : string) (t : list event) :
  In (SetStatus s) t -> In s (status_writes t).
Proof.
  intros H. unfold status_writes. apply in_flat_map.
  exists (SetStatus s). split; [assumption | now left].
Qed.

Lemma sim_statuses (w : world) (sim : job) :
  Forall (fun s => In s job_statuses) (status_writes (CFD.thread_trace w sim)).
Proof.
  rewrite <- status_writes_writes.
  eapply sim_lifecycle_statuses, sim_thread_lifecycle.
Qed.

Lemma mesh_statuses_written (w : world) (job : Mesh.mesh_job) :
  Forall (fun s => In s mesh_statuses) (status_writes (Mesh.Job.thread_trace w job)).
Proof.
  rewrite <- status_writes_writes.
  eapply mesh_lifecycle_statuses, mesh_thread_lifecycle.
Qed.

(* ===================================================================== *)
(** ** The claims *)
(* ===================================================================== *)

(** C1, as stated, fails for mesh jobs: the runner of a mesh job that
    completes assigns ["generating"] to [status], a value outside the set of
    the specification, and never ["running"] nor ["post_processing"]. *)
Lemma C1_mesh_job_is_generating :
  status_writes (Mesh.Job.thread_trace Scenario.meshing Scenario.box)
    = ["setting_up"; "generating"; "completed"] /\
  ~ In "generating" job_statuses.
Proof.
  split; [vm_compute; reflexivity|].
  cbn. intros H. repeat (destruct H as [H | H]; [discriminate H|]). exact H.
Qed.

(** C1, amended.  A simulation job's [status] only takes values of the
    set, whatever its runner and its clients (polls, cancel requests) do,
    and a runner that reaches ["completed"] has assigned exactly
    ["setting_up"], ["running"], ["post_processing"], ["completed"], in this
    order.  A mesh job's [status] takes the values ["queued"],
    ["setting_up"], ["generating"], ["completed"], ["failed"]; a runner that
    reaches ["completed"] has assigned ["setting_up"], ["generating"],
    ["completed"]. *)
Theorem C1_status_lifecycle (w : world) (job_id geometry : string) (cfg : json)
    (sched : list action) :
  let sim := CFD.CFDSimulation job_id cfg in
  let job := Mesh.MeshGenerationJob job_id geometry cfg in
  In (status (record (run (CFD.started w sim) sched))) job_statuses /\
  (In "completed" (status_writes (CFD.thread_trace w sim)) ->
   status sim :: status_writes (CFD.thread_trace w sim)
     = ["queued"; "setting_up"; "running"; "post_processing"; "completed"]) /\
  Forall (fun s => In s mesh_statuses)
         (status (Mesh.base job) :: status_writes (Mesh.Job.thread_trace w job)) /\
  (In "completed" (status_writes (Mesh.Job.thread_trace w job)) ->
   status (Mesh.base job) :: status_writes (Mesh.Job.thread_trace w job)
     = ["queued"; "setting_up"; "generating"; "completed"]).
Proof.
  intros sim job. repeat split.
  - destruct (run_split sched (CFD.started w sim)) as (d & Hp & _ & [Hst | Hst]);
      [|rewrite Hst; cbn; auto 10].
    cbn [CFD.started record pending] in Hp, Hst.
    destruct (status_written _ _ _ (eq_sym Hst)) as [E | E]; [rewrite E; cbn; auto 10|].
    pose proof (sim_statuses w sim) as HF. rewrite Hp, status_writes_app in HF.
    apply Forall_app in HF as [HF _]. rewrite List.Forall_forall in HF.
    apply HF, in_status_writes, E.
  - intros H. rewrite <- status_writes_writes in H |- *.
    f_equal. eapply sim_lifecycle_completed; [apply sim_thread_lifecycle | exact H].
  - apply List.Forall_cons; [cbn; auto | apply mesh_statuses_written].
  - intros H. rewrite <- status_writes_writes in H |- *.
    f_equal. eapply mesh_lifecycle_completed; [apply mesh_thread_lifecycle | exact H].
Qed.

Lemma C1_status_lifecycle_witness :
  In "completed" (status_writes (CFD.thread_trace Scenario.calm Scenario.sim)) /\
  status Scenario.sim :: status_writes (CFD.thread_trace Scenario.calm Scenario.sim)
    = ["queued"; "setting_up"; "running"; "post_processing"; "completed"].
Proof.
  assert (H : In "completed" (status_writes (CFD.thread_trace Scenario.calm Scenario.sim)))
    by (vm_compute; tauto).
  split; [exact H|].
  exact (proj1 (proj2 (C1_status_lifecycle Scenario.calm "s1" "box.stl" Scenario.sim_config [])) H).
Defined.

Lemma sim_final_last (w : world) (sim : job) : final_last (writes (CFD.thread_trace w sim)) = true.
Proof. eapply sim_lifecycle_final, sim_thread_lifecycle. Qed.

Lemma in_writes (e : event) (t : list event) : In e t -> is_write e = true -> In e (writes t).
Proof. intros H1 H2. apply List.filter_In. now split. Qed.

Lemma writes_prefix_quiet (a b : list event) : writes (a ++ b) = [] -> writes a = [].
Proof. rewrite writes_app. intros H. now apply app_eq_nil in H. Qed.

(** Once a runner whose final assignments come last has assigned
    ["failed"] to [status], or a value to [end_time], it has no assignment
    left. *)
Lemma settled (j : job) (t : list event) (sched : list action) :
  final_last (writes t) = true ->
  status j = "queued" -> end_time j = None ->
  let s := run (mkShared j t) sched in
  status (record s) = "failed" \/ end_time (record s) <> None ->
  writes (pending s) = [].
Proof.
  intros HF Hq He s H. subst s.
  destruct (run_split sched (mkShared j t)) as (d & Hp & Hs & Hst).
  cbn [record pending] in Hp, Hs, Hst.
  rewrite Hp, writes_app in HF.
  destruct H as [H | H].
  - destruct Hst as [Hst | Hst]; [|rewrite H in Hst; discriminate Hst].
    rewrite H in Hst. destruct (status_written _ _ _ (eq_sym Hst)) as [E | E];
      [rewrite Hq in E; discriminate E|].
    eapply final_last_split; [exact HF | apply in_writes; [exact E | reflexivity] | reflexivity].
  - destruct Hs as (_ & _ & _ & _ & Hend & _). rewrite Hend in H.
    destruct (end_time_written _ _ He H) as [t1 E].
    eapply final_last_split; [exact HF | apply in_writes; [exact E | reflexivity] | reflexivity].
Qed.

(** From then on the record changes only by a cancel request, and only in
    [status]. *)
Lemma settled_for_good (j : job) (t : list event) (before after : list action) :
  final_last (writes t) = true ->
  status j = "queued" -> end_time j = None ->
  let s1 := run (mkShared j t) before in
  let s2 := run s1 after in
  status (record s1) = "failed" \/ end_time (record s1) <> None ->
  same_but_status (record s2) (record s1) /\
  (status (record s2) = status (record s1) \/ status (record s2) = "cancelled") /\
  (~ In Cancel after -> record s2 = record s1).
Proof.
  intros HF Hq0 He0 s1 s2 H.
  assert (Hq : writes (pending s1) = []) by (now apply settled).
  destruct (run_split after s1) as (d & Hp & Hs & Hst). fold s2 in Hp, Hs, Hst.
  assert (Hd : writes d = []) by (rewrite Hp in Hq; now apply writes_prefix_quiet in Hq).
  rewrite (apply_events_quiet _ _ Hd) in Hs, Hst.
  split; [exact Hs|]. split; [exact Hst|].
  intros Hn. destruct (run_split_no_cancel after s1 Hn) as (d' & Hp' & Hr').
  fold s2 in Hp', Hr'. rewrite Hr'. apply apply_events_quiet.
  rewrite Hp' in Hq. now apply writes_prefix_quiet in Hq.
Qed.

Lemma mesh_final_last (w : world) (job : Mesh.mesh_job) :
  final_last (writes (Mesh.Job.thread_trace w job)) = true.
Proof. eapply mesh_lifecycle_final, mesh_thread_lifecycle. Qed.

(** What the two handlers on one simulation do to its record:
    [cancel_simulation] is the action [Cancel], and the answer of
    [get_simulation_status] is computed from the record without changing
    it. *)
Lemma cancel_simulation_is_cancel (sim_id : string) (sims : gmap string job)
    (simulation : job) (todo : list event) :
  sims !! sim_id = Some simulation ->
  snd (CFD.cancel_simulation sim_id sims) !! sim_id
    = Some (record (step (mkShared simulation todo) Cancel)) /\
  fst (CFD.cancel_simulation sim_id sims) = mkResponse (JDict [("status", JStr "cancelled")]) 200.
Proof.
  intros H. unfold CFD.cancel_simulation. rewrite H. cbn.
  split; [apply lookup_insert_eq | reflexivity].
Qed.

Lemma get_simulation_status_known (now : Q) (sim_id : string) (sims : gmap string job)
    (simulation : job) :
  sims !! sim_id = Some simulation ->
  CFD.get_simulation_status now sim_id sims = inl (CFD.get_status now simulation).
Proof. intros H. unfold CFD.get_simulation_status. now rewrite H. Qed.

(** C2, as stated, fails.  (1) A cancel request on a completed job
    overwrites its [status].  (2) A job cancelled while its runner is active
    is in the terminal status ["cancelled"], and the runner goes on to
    change [progress], [status] and [end_time]. *)
Lemma C2_cancel_and_runner_change_terminal_jobs :
  let started := CFD.started Scenario.calm Scenario.sim in
  let finished := run started (repeat RunnerStep 60) in
  let cancelled := run started [RunnerStep; Cancel] in
  let later := run cancelled (repeat RunnerStep 60) in
  (terminal (status (record finished)) = true /\
   status (record finished) = "completed" /\
   status (record (run finished [Cancel])) = "cancelled") /\
  (terminal (status (record cancelled)) = true /\
   progress (record cancelled) = 0%Z /\ end_time (record cancelled) = None /\
   progress (record later) = 100%Z /\ status (record later) = "completed" /\
   end_time (record later) = Some 20%Q).
Proof. vm_compute. repeat split; reflexivity. Qed.

(** C2, amended.  Once the [status] of a simulation job is ["failed"], or
    its [end_time] is set, neither polling nor the runner changes the record
    any more, and a cancel request changes nothing but [status], which it
    sets to ["cancelled"]: every later [get_status] shows the same [error],
    [end_time] and [progress], and the same [status] unless a cancel request
    came in between.  The same holds for a mesh job under polls and steps of
    its runner. *)
Theorem C2_settled_record (w : world) (job_id geometry : string) (cfg : json)
    (before after : list action) (now1 now2 : Q) :
  let s1 := run (CFD.started w (CFD.CFDSimulation job_id cfg)) before in
  let s2 := run s1 after in
  let m1 := run (Mesh.Job.started w (Mesh.MeshGenerationJob job_id geometry cfg)) before in
  let m2 := run m1 after in
  (status (record s1) = "failed" \/ end_time (record s1) <> None ->
   let v1 := CFD.get_status now1 (record s1) in
   let v2 := CFD.get_status now2 (record s2) in
   CFD.v_error v2 = CFD.v_error v1 /\
   CFD.v_end_time v2 = CFD.v_end_time v1 /\
   CFD.v_progress v2 = CFD.v_progress v1 /\
   (CFD.v_status v2 = CFD.v_status v1 \/ CFD.v_status v2 = "cancelled") /\
   (~ In Cancel after -> record s2 = record s1)) /\
  (status (record m1) = "failed" \/ end_time (record m1) <> None ->
   ~ In Cancel after -> record m2 = record m1).
Proof.
  intros s1 s2 m1 m2. split.
  - intros H v1 v2.
    destruct (settled_for_good (CFD.CFDSimulation job_id cfg) _ before after
                (sim_final_last w _) eq_refl eq_refl H)
      as ((_ & _ & Hprog & _ & Hend & Herr) & Hst & Hsame).
    repeat split; assumption.
  - intros H Hn.
    destruct (settled_for_good (Mesh.base (Mesh.MeshGenerationJob job_id geometry cfg)) _
                before after (mesh_final_last w _) eq_refl eq_refl H)
      as (_ & _ & Hsame).
    now apply Hsame.
Qed.

Lemma C2_settled_record_witness :
  let s1 := run (CFD.started Scenario.calm Scenario.sim) (repeat RunnerStep 60) in
  let s2 := run s1 [Poll; RunnerStep; Cancel; Poll] in
  let v1 := CFD.get_status 30 (record s1) in
  let v2 := CFD.get_status 31 (record s2) in
  (status (record s1) = "failed" \/ end_time (record s1) <> None) /\
  CFD.v_error v2 = CFD.v_error v1 /\
  CFD.v_end_time v2 = CFD.v_end_time v1 /\
  CFD.v_progress v2 = CFD.v_progress v1 /\
  (CFD.v_status v2 = CFD.v_status v1 \/ CFD.v_status v2 = "cancelled") /\
  (~ In Cancel [Poll; RunnerStep; Cancel; Poll] -> record s2 = record s1).
Proof.
  intros s1 s2 v1 v2.
  assert (H : status (record s1) = "failed" \/ end_time (record s1) <> None)
    by (right; vm_compute; discriminate).
  split; [exact H|].
  exact (proj1 (C2_settled_record Scenario.calm "s1" "box.stl" Scenario.sim_config
                  (repeat RunnerStep 60) [Poll; RunnerStep; Cancel; Poll] 30 31) H).
Defined.






(** *** The trace of a simulation whose solver was started *)

Lemma apply_progress_only (j : job) (ks : list Z) :
  apply_events j (map SetProgress ks) =
  mkJob (id j) (config j) (status j) (List.last ks (progress j))
        (start_time j) (end_time j) (error j).
Proof.
  revert j; induction ks as [|k ks IH]; intros j; [now destruct j|].
  change (apply_events j (map SetProgress (k :: ks)))
    with (apply_events (apply_event j (SetProgress k)) (map SetProgress ks)).
  rewrite IH, last_cons_default. reflexivity.
Qed.


Lemma monitor_status_writes (sim : job) (obs : list observation) :
  status_writes (fst (CFD.monitor sim obs)) = [].
Proof.
  rewrite <- status_writes_writes, monitor_writes. apply status_writes_progress.
Qed.









(** *** Setup *)



Lemma no_spawn_spec (t : list event) (cmd : list string) (cwd : option path) :
  no_spawn t = true -> ~ In (IO (Spawn cmd cwd)) t.
Proof.
  unfold no_spawn. rewrite forallb_forall. intros H Hin.
  specialize (H _ Hin). discriminate H.
Qed.








(** *** The progress estimator *)






(** C10.  With no JSON body, or the body [null], [request.json] is
    [None]: the membership test raises, and both creation handlers answer
    500 with the message of the exception; the registry is unchanged and no
    thread is started. *)
Theorem C10_null_body (uuid : string) (sims : gmap string job)
    (meshes : gmap string Mesh.mesh_job) (geometry_exists : path -> bool) :
  py_in "wind_speed" JNull = Raise "argument of type 'NoneType' is not iterable" /\
  py_in "geometry_file" JNull = Raise "argument of type 'NoneType' is not iterable" /\
  CFD.start_simulation JNull uuid sims =
    mkCreated (error_response "argument of type 'NoneType' is not iterable" 500) sims None /\
  Mesh.generate_mesh geometry_exists JNull uuid meshes =
    mkCreated (error_response "argument of type 'NoneType' is not iterable" 500) meshes None.
Proof. repeat split; reflexivity. Qed.

(** C9: two runner threads of one server.  Thread 0 (simulation [a])
    runs up to its [os.chdir], then thread 1 (simulation [b]) runs up to its
    own; the [checkMesh] and the solver that thread 0 starts next run in the
    case directory of [b], while the post-processing of [a], started with
    [cwd=], runs in the case directory of [a]. *)
Theorem C9_working_directory_race :
  let order := repeat 0 20 ++ repeat 1 20 ++ repeat 0 30 in
  let p := Process.schedule Scenario.two_runners order in
  CFD.case_dir Scenario.sim_a = "/cases/a" /\
  CFD.case_dir Scenario.sim_b = "/cases/b" /\
  Process.launched p =
    [Process.mkLaunch 0 ["checkMesh"] "/cases/b";
     Process.mkLaunch 0 ["simpleFoam"] "/cases/b";
     Process.mkLaunch 0 ["postProcess"; "-func"; "sample"; "-latestTime"] "/cases/a"].
Proof. vm_compute. repeat split; reflexivity. Qed.

(** *** Creation requests *)





(* ===================================================================== *)
(** ** Further properties of the two servers *)
(* ===================================================================== *)

(** *** The order of [(time_val, name)] pairs *)






Lemma insert_reverse_in (e x : pyfloat * string) (l : list (pyfloat * string)) :
  In e (CFD.insert_reverse x l) <-> e = x \/ In e l.
Proof.
  induction l as [|y l IH]; cbn; [intuition|].
  destruct (CFD.pair_lt x y); cbn; rewrite ?IH; intuition.
Qed.

Lemma sort_reverse_in (e : pyfloat * string) (l : list (pyfloat * string)) :
  In e (CFD.sort_reverse l) <-> In e l.
Proof.
  induction l as [|x l IH]; cbn; [tauto|].
  rewrite insert_reverse_in, IH. intuition.
Qed.






(** *** Commands that fail, commands whose exit code is ignored *)

Ltac list_normal :=
  repeat (progress (rewrite ?List.app_nil_r, <- ?List.app_assoc; cbn [app])).


(** X4: the exit code of the [checkMesh] that ends a mesh generation, and
    the exit code of the sampling [postProcess] of a simulation, are never
    looked at: the whole run of the thread is the same whatever they are. *)
Theorem unchecked_exit_codes (w : world) (rc : Z) (sim : job) (job : Mesh.mesh_job) :
  Mesh.Job.run_mesh_generation_thread (with_returncode w ["checkMesh"] rc) job
    = Mesh.Job.run_mesh_generation_thread w job /\
  CFD.run_simulation_thread
      (with_returncode w ["postProcess"; "-func"; "sample"; "-latestTime"] rc) sim
    = CFD.run_simulation_thread w sim.
Proof. split; reflexivity. Qed.

Lemma mesh_setup_record (w : world) (job_id geometry : string) (cfg : json) :
  let job := Mesh.MeshGenerationJob job_id geometry cfg in
  snd (Mesh.Job.setup_case w job) = Ok true ->
  apply_events (Mesh.base job) (fst (Mesh.Job.setup_case w job)) =
    mkJob job_id cfg "setting_up" 20 None None None.
Proof.
  intros job Hs.
  destruct (mesh_setup_case_writes w job) as [_ [[_ Hw] | [m [Hr _]]]];
    [|rewrite Hs in Hr; discriminate Hr].
  now rewrite <- apply_events_writes, Hw.
Qed.

Lemma filter_no_spawn (t : list event) : no_spawn t = true -> List.filter is_spawn t = [].
Proof.
  unfold no_spawn. induction t as [|e t IH]; cbn; [reflexivity|].
  destruct (is_spawn e); cbn; [discriminate|exact IH].
Qed.

(** X5: [blockMesh] and [surfaceFeatureExtract] run with [check=True]: when
    one of them exits with a code other than 0, the mesh job ends failed
    with an error that starts with ["Mesh generation failed: "], at
    progress 30 or 40, without end time, and no later command is started. *)
Theorem preparation_command_failure (w : world) (job_id geometry : string) (cfg : json) :
  let job := Mesh.MeshGenerationJob job_id geometry cfg in
  let trace := Mesh.Job.thread_trace w job in
  mesher_prepared w job ->
  (returncode w ["blockMesh"] <> 0%Z ->
   (exists msg,
      apply_events (Mesh.base job) trace =
        mkJob job_id cfg "failed" 30 (Some (time_start w)) None
              (Some ("Mesh generation failed: " +:+ msg))) /\
   List.filter is_spawn trace = [IO (Spawn ["blockMesh"] None)]) /\
  (returncode w ["blockMesh"] = 0%Z ->
   raises w (Spawn ["surfaceFeatureExtract"] None) = None ->
   returncode w ["surfaceFeatureExtract"] <> 0%Z ->
   (exists msg,
      apply_events (Mesh.base job) trace =
        mkJob job_id cfg "failed" 40 (Some (time_start w)) None
              (Some ("Mesh generation failed: " +:+ msg))) /\
   List.filter is_spawn trace =
     [IO (Spawn ["blockMesh"] None); IO (Spawn ["surfaceFeatureExtract"] None)]).
Proof.
  intros job trace (Hs & H1 & H2). subst trace.
  pose proof (mesh_setup_record w job_id geometry cfg Hs) as HR. fold job in HR.
  destruct (mesh_setup_case_writes w job) as [Hn _]. apply filter_no_spawn in Hn.
  unfold Mesh.Job.thread_trace, Mesh.Job.run_mesh_generation_thread.
  destruct (Mesh.Job.setup_case w job) as [ts rs]; cbn [fst snd] in Hs, HR, Hn |- *; subst rs.
  unfold Mesh.Job.generate_mesh, Mesh.Job.run_checked, io, lift, set, ret, try_except, bind.
  rewrite H1, H2. split.
  - intros Hrc. apply Z.eqb_neq in Hrc. rewrite Hrc. cbn [fst snd negb app].
    rewrite List.filter_app, Hn, apply_events_app, HR. split; [eexists|]; reflexivity.
  - intros Hrc H3 Hrc'. apply Z.eqb_neq in Hrc'. rewrite Hrc, H3, Hrc'. cbn [fst snd negb app Z.eqb].
    rewrite List.filter_app, Hn, apply_events_app, HR. split; [eexists|]; reflexivity.
Qed.

Lemma setup_record (w : world) (sim_id : string) (cfg : json) :
  let sim := CFD.CFDSimulation sim_id cfg in
  snd (CFD.setup_case w sim) = Ok true ->
  apply_events sim (fst (CFD.setup_case w sim)) =
    mkJob sim_id cfg "setting_up" 20 None None None.
Proof.
  intros sim Hs.
  destruct (setup_case_writes w sim) as [_ [[_ Hw] | [m [Hr _]]]];
    [|rewrite Hs in Hr; discriminate Hr].
  now rewrite <- apply_events_writes, Hw.
Qed.

(** X2: when the simulation has been set up and [checkMesh] exits with a
    code other than 0, the job ends failed with the error
    ["Mesh check failed"], progress 45, a start time and no end time, and
    no other command is started: the solver never runs. *)
Theorem mesh_check_failure (w : world) (sim_id : string) (cfg : json) :
  let sim := CFD.CFDSimulation sim_id cfg in
  snd (CFD.setup_case w sim) = Ok true ->
  raises w (Chdir (CFD.case_dir sim)) = None ->
  raises w (Spawn ["checkMesh"] None) = None ->
  returncode w ["checkMesh"] <> 0%Z ->
  CFD.thread_trace w sim =
    fst (CFD.setup_case w sim) ++
    [SetStatus "running"; SetStartTime (time_start w); SetProgress 40;
     IO (Chdir (CFD.case_dir sim)); SetProgress 45; IO (Spawn ["checkMesh"] None);
     SetError "Mesh check failed"; SetStatus "failed"] /\
  apply_events sim (CFD.thread_trace w sim) =
    mkJob sim_id cfg "failed" 45 (Some (time_start w)) None (Some "Mesh check failed") /\
  List.filter is_spawn (CFD.thread_trace w sim) = [IO (Spawn ["checkMesh"] None)].
Proof.
  intros sim Hs H1 H2 Hrc. apply Z.eqb_neq in Hrc.
  assert (CFD.thread_trace w sim =
    fst (CFD.setup_case w sim) ++
    [SetStatus "running"; SetStartTime (time_start w); SetProgress 40;
     IO (Chdir (CFD.case_dir sim)); SetProgress 45; IO (Spawn ["checkMesh"] None);
     SetError "Mesh check failed"; SetStatus "failed"]) as HT.
  { unfold CFD.thread_trace, CFD.run_simulation_thread.
    destruct (CFD.setup_case w sim) as [ts rs]; cbn [fst snd] in Hs |- *; subst rs.
    unfold CFD.run_simulation, io, lift, set, ret, try_except, bind.
    rewrite H1, H2, Hrc. cbn. list_normal; reflexivity. }
  split; [exact HT|]. rewrite HT. split.
  - rewrite apply_events_app. unfold sim. rewrite (setup_record w sim_id cfg Hs). reflexivity.
  - rewrite List.filter_app.
    destruct (setup_case_writes w sim) as [Hn _]. unfold no_spawn in Hn.
    assert (forall t, forallb (fun e => negb (is_spawn e)) t = true -> List.filter is_spawn t = [])
      as Hq.
    { induction t as [|e t IH]; cbn; [reflexivity|].
      destruct (is_spawn e); cbn; [discriminate|exact IH]. }
    rewrite (Hq _ Hn). reflexivity.
Qed.

Lemma mesh_check_failure_witness :
  let w := Scenario.mesh_check_fails in
  let sim := Scenario.sim in
  (snd (CFD.setup_case w sim) = Ok true /\ returncode w ["checkMesh"] <> 0%Z) /\
  apply_events sim (CFD.thread_trace w sim) =
    mkJob "s1" Scenario.sim_config "failed" 45 (Some 10%Q) None (Some "Mesh check failed").
Proof.
  intros w sim.
  assert (H0 : snd (CFD.setup_case w sim) = Ok true) by (vm_compute; reflexivity).
  assert (H3 : returncode w ["checkMesh"] <> 0%Z) by (vm_compute; discriminate).
  split; [auto|].
  exact (proj1 (proj2 (mesh_check_failure w "s1" Scenario.sim_config H0 eq_refl eq_refl H3))).
Defined.


(** *** The trace of a mesh job whose mesher was started *)

Lemma mesh_monitor_returns (start : Q) (obs : list observation) :
  snd (Mesh.Job.monitor start obs) = Ok tt.
Proof.
  induction obs as [|o obs IH]; [reflexivity|].
  cbn [Mesh.Job.monitor]. unfold sleep, set, bind.
  destruct (Mesh.Job.monitor start obs) as [t r]. cbn in IH |- *. now subst r.
Qed.

Lemma mesh_monitor_capped (start : Q) (obs : list observation) :
  Forall (fun k => (k <= 85)%Z) (progress_writes (fst (Mesh.Job.monitor start obs))).
Proof.
  induction obs as [|o obs IH]; [constructor|].
  cbn [Mesh.Job.monitor]. unfold sleep, set, bind.
  destruct (Mesh.Job.monitor start obs) as [t [[]|e]]; cbn in IH |- *.
  - constructor; [apply Z.le_min_r | exact IH].
  - constructor; [apply Z.le_min_r | exact IH].
Qed.

Lemma mesh_trace_after_launch (w : world) (job : Mesh.mesh_job) :
  mesher_launched w job ->
  Mesh.Job.thread_trace w job =
    (fst (Mesh.Job.setup_case w job) ++
     [SetStatus "generating"; SetStartTime (time_start w); IO (Chdir (Mesh.case_dir job));
      SetProgress 30; IO (Spawn ["blockMesh"] None);
      SetProgress 40; IO (Spawn ["surfaceFeatureExtract"] None);
      SetProgress 50; IO (OpenW (Mesh.case_dir job // "log.snappyHexMesh"));
      IO (Spawn ["snappyHexMesh"; "-overwrite"] None)] ++
     fst (Mesh.Job.monitor (time_start w) (monitor_obs w))) ++
    if negb (returncode w ["snappyHexMesh"; "-overwrite"] =? 0)%Z
    then [SetError "snappyHexMesh failed"; SetStatus "failed"]
    else SetProgress 90 ::
         match raises w (Spawn ["checkMesh"] None) with
         | Some e => [SetError ("Mesh generation failed: " +:+ e); SetStatus "failed"]
         | None =>
             IO (Spawn ["checkMesh"] None) ::
             fst (Mesh.Job._parse_mesh_stats (stdout w ["checkMesh"])) ++
             fst (Mesh.Job._copy_mesh w job) ++
             match snd (Mesh.Job._copy_mesh w job) with
             | Ok _ => [SetProgress 100; SetStatus "completed"; SetEndTime (time_end w)]
             | Raise e => [SetError ("Mesh generation failed: " +:+ e); SetStatus "failed"]
             end
         end.
Proof.
  intros ((Hs & H1 & H2) & H3 & H4 & H5 & H6 & H7).
  unfold Mesh.Job.thread_trace, Mesh.Job.run_mesh_generation_thread.
  destruct (Mesh.Job.setup_case w job) as [ts rs]; cbn [fst snd] in Hs |- *; subst rs.
  unfold Mesh.Job.generate_mesh, Mesh.Job.run_checked, io, lift, set, ret, try_except, bind.
  rewrite H1, H2, H3, H4, H5, H6, H7. cbn [Z.eqb negb].
  pose proof (mesh_monitor_returns (time_start w) (monitor_obs w)) as HM.
  destruct (Mesh.Job.monitor (time_start w) (monitor_obs w)) as [tm rm];
    cbn [fst snd] in HM |- *; subst rm.
  destruct (negb (returncode w ["snappyHexMesh"; "-overwrite"] =? 0)%Z); cbn [fst snd app].
  - list_normal; reflexivity.
  - destruct (raises w (Spawn ["checkMesh"] None)); cbn [fst snd app].
    + list_normal; reflexivity.
    + unfold Mesh.Job._parse_mesh_stats. cbn [fst snd app].
      destruct (Mesh.Job._copy_mesh w job) as [tc [[]|e]]; cbn [fst snd app];
        list_normal; reflexivity.
Qed.

(** *** Classes of events *)

Lemma sim_setup_events (w : world) (sim : job) :
  forallb is_setup_event (fst (CFD.setup_case w sim)) = true.
Proof. unfold_cfd. cbn. repeat run_step. all: reflexivity. Qed.

Lemma mesh_setup_events (w : world) (job : Mesh.mesh_job) :
  forallb is_setup_event (fst (Mesh.Job.setup_case w job)) = true.
Proof.
  unfold_mesh. cbn -[existsb].
  match goal with |- context [existsb ?f ?l] => destruct (existsb f l) end; cbn.
  all: repeat run_step. all: reflexivity.
Qed.

Lemma sim_monitor_events (sim : job) (obs : list observation) :
  forallb is_monitor_event (fst (CFD.monitor sim obs)) = true.
Proof.
  induction obs as [|o obs IH]; [reflexivity|].
  cbn [CFD.monitor]. unfold sleep, lift, set, bind.
  destruct (CFD._parse_log_progress sim (obs_log o)) as [v|]; [|reflexivity].
  destruct (py_int (fmul v (Fin 0.4))) as [k|]; [|reflexivity].
  destruct (CFD.monitor sim obs) as [t [[]|]]; cbn in *; now rewrite ?IH.
Qed.

Lemma mesh_monitor_events (start : Q) (obs : list observation) :
  forallb is_monitor_event (fst (Mesh.Job.monitor start obs)) = true.
Proof.
  induction obs as [|o obs IH]; [reflexivity|].
  cbn [Mesh.Job.monitor]. unfold sleep, set, bind.
  destruct (Mesh.Job.monitor start obs) as [t [[]|]]; cbn in *; now rewrite ?IH.
Qed.

Lemma forallb_weaken {A} (p q : A -> bool) (l : list A) :
  (forall x, p x = true -> q x = true) -> forallb p l = true -> forallb q l = true.
Proof.
  intros H. induction l as [|x l IH]; cbn; [reflexivity|].
  intros [Hx Hl]%andb_prop. now rewrite (H _ Hx), IH.
Qed.

Lemma stats_writes_app (a b : list event) : stats_writes (a ++ b) = stats_writes a ++ stats_writes b.
Proof. apply flat_map_app. Qed.

Lemma stats_writes_quiet (p : event -> bool) (t : list event) :
  (forall s, p (SetMeshStats s) = false) -> forallb p t = true -> stats_writes t = [].
Proof.
  intros Hp. induction t as [|e t IH]; cbn; [reflexivity|].
  intros [He Ht]%andb_prop. destruct e; cbn; auto. now rewrite Hp in He.
Qed.

Lemma base_apply_mesh_events (j : Mesh.mesh_job) (t : list event) :
  Mesh.base (Mesh.apply_mesh_events j t) = apply_events (Mesh.base j) t.
Proof.
  revert j; induction t as [|e t IH]; intros j; [reflexivity|].
  cbn. unfold Mesh.apply_mesh_events, apply_events in IH. rewrite IH. now destruct e.
Qed.

Lemma mesh_stats_apply_mesh_events (j : Mesh.mesh_job) (t : list event) :
  Mesh.mesh_stats (Mesh.apply_mesh_events j t) =
  match last (stats_writes t) with
  | Some s => Some s
  | None => Mesh.mesh_stats j
  end.
Proof.
  revert j; induction t as [|e t IH]; intros j; [reflexivity|].
  cbn [Mesh.apply_mesh_events fold_left]. unfold Mesh.apply_mesh_events in IH. rewrite IH.
  destruct e; cbn; try reflexivity.
  unfold stats_writes. fold (stats_writes t).
  destruct (stats_writes t) as [|s' r]; cbn; [reflexivity|].
  destruct (last (s' :: r)) eqn:E; [reflexivity|]. apply last_None in E. discriminate E.
Qed.

Lemma geometry_apply_mesh_events (j : Mesh.mesh_job) (t : list event) :
  Mesh.geometry_file (Mesh.apply_mesh_events j t) = Mesh.geometry_file j.
Proof.
  revert j; induction t as [|e t IH]; intros j; [reflexivity|].
  cbn. unfold Mesh.apply_mesh_events in IH. rewrite IH. now destruct e.
Qed.
Lemma filter_spawn_quiet (p : event -> bool) (t : list event) :
  (forall e, p e = true -> is_spawn e = false) -> forallb p t = true ->
  List.filter is_spawn t = [].
Proof.
  intros Hp. induction t as [|e t IH]; cbn; [reflexivity|].
  intros [He Ht]%andb_prop. now rewrite (Hp _ He), IH.
Qed.

Lemma setup_event_no_spawn (e : event) : is_setup_event e = true -> is_spawn e = false.
Proof. destruct e as [| | | | | |[]]; cbn; congruence. Qed.

Lemma monitor_event_no_spawn (e : event) : is_monitor_event e = true -> is_spawn e = false.
Proof. destruct e as [| | | | | |[]]; cbn; congruence. Qed.

Lemma parse_stat_lines_no_spawn (lines : list string) (stats : list (string * Z)) :
  List.filter is_spawn (Mesh.parse_stat_lines lines stats) = [].
Proof.
  revert stats; induction lines as [|line lines IH]; intros stats; [reflexivity|].
  cbn [Mesh.parse_stat_lines].
  destruct (contains "cells:" line), (contains "points:" line), (contains "faces:" line);
    try apply IH; destruct (Mesh.stat_value line); cbn; apply IH.
Qed.

Lemma copy_mesh_no_spawn (w : world) (job : Mesh.mesh_job) :
  List.filter is_spawn (fst (Mesh.Job._copy_mesh w job)) = [] /\
  stats_writes (fst (Mesh.Job._copy_mesh w job)) = [] /\
  writes (fst (Mesh.Job._copy_mesh w job)) = [].
Proof.
  unfold Mesh.Job._copy_mesh, io, ret.
  destruct (path_exists w _); [|now cbn]. destruct (raises w _); now cbn.
Qed.

Lemma mesh_record_after_monitor (w : world) (job_id geometry : string) (cfg : json) :
  let job := Mesh.MeshGenerationJob job_id geometry cfg in
  snd (Mesh.Job.setup_case w job) = Ok true ->
  apply_events (Mesh.base job)
    (fst (Mesh.Job.setup_case w job) ++
     [SetStatus "generating"; SetStartTime (time_start w); IO (Chdir (Mesh.case_dir job));
      SetProgress 30; IO (Spawn ["blockMesh"] None);
      SetProgress 40; IO (Spawn ["surfaceFeatureExtract"] None);
      SetProgress 50; IO (OpenW (Mesh.case_dir job // "log.snappyHexMesh"));
      IO (Spawn ["snappyHexMesh"; "-overwrite"] None)] ++
     fst (Mesh.Job.monitor (time_start w) (monitor_obs w)))
  = mkJob job_id cfg "generating"
      (List.last (progress_writes (fst (Mesh.Job.monitor (time_start w) (monitor_obs w)))) 50%Z)
      (Some (time_start w)) None None.
Proof.
  intros job Hs.
  destruct (mesh_setup_case_writes w job) as [_ [[_ Hw] | [m [Hr _]]]];
    [|rewrite Hs in Hr; discriminate Hr].
  rewrite <- apply_events_writes, !writes_app, Hw, mesh_monitor_writes.
  rewrite !apply_events_app, apply_progress_only. reflexivity.
Qed.

Lemma last_capped (ks : list Z) (d b : Z) :
  (d <= b)%Z -> Forall (fun k => (k <= b)%Z) ks -> (List.last ks d <= b)%Z.
Proof.
  intros Hd H. revert d Hd. induction H as [|k ks Hk Hks IH]; intros d Hd; [exact Hd|].
  rewrite last_cons_default. now apply IH.
Qed.

(** X6: when [snappyHexMesh] exits with a code other than 0, the mesh job
    ends failed with the error ["snappyHexMesh failed"], at the last
    progress of the monitoring loop (at most 85); [checkMesh] is not run
    and [mesh_stats] stays [None]. *)
Theorem mesher_failure (w : world) (job_id geometry : string) (cfg : json) :
  let job := Mesh.MeshGenerationJob job_id geometry cfg in
  let trace := Mesh.Job.thread_trace w job in
  let final := Mesh.apply_mesh_events job trace in
  mesher_launched w job ->
  returncode w ["snappyHexMesh"; "-overwrite"] <> 0%Z ->
  Mesh.base final =
    mkJob job_id cfg "failed"
      (List.last (progress_writes (fst (Mesh.Job.monitor (time_start w) (monitor_obs w)))) 50%Z)
      (Some (time_start w)) None (Some "snappyHexMesh failed") /\
  (progress (Mesh.base final) <= 85)%Z /\
  Mesh.mesh_stats final = None /\
  List.filter is_spawn trace =
    [IO (Spawn ["blockMesh"] None); IO (Spawn ["surfaceFeatureExtract"] None);
     IO (Spawn ["snappyHexMesh"; "-overwrite"] None)].
Proof.
  intros job trace final HL Hrc. subst final trace.
  pose proof (mesh_trace_after_launch w job HL) as HT.
  apply Z.eqb_neq in Hrc. rewrite Hrc in HT. cbn [negb] in HT.
  pose proof (mesh_record_after_monitor w job_id geometry cfg (proj1 (proj1 HL))) as HR.
  fold job in HR.
  pose proof (mesh_setup_events w job) as HS.
  pose proof (mesh_monitor_events (time_start w) (monitor_obs w)) as HM.
  pose proof (mesh_monitor_capped (time_start w) (monitor_obs w)) as HC.
  assert (Mesh.base (Mesh.apply_mesh_events job (Mesh.Job.thread_trace w job)) =
    mkJob job_id cfg "failed"
      (List.last (progress_writes (fst (Mesh.Job.monitor (time_start w) (monitor_obs w)))) 50%Z)
      (Some (time_start w)) None (Some "snappyHexMesh failed")) as HB.
  { rewrite base_apply_mesh_events, HT, apply_events_app, HR. reflexivity. }
  split; [exact HB|]. split; [|split].
  - rewrite HB. cbn. apply last_capped; [lia | exact HC].
  - rewrite mesh_stats_apply_mesh_events, HT, !stats_writes_app.
    rewrite (stats_writes_quiet is_setup_event _ (fun _ => eq_refl) HS).
    rewrite (stats_writes_quiet is_monitor_event _ (fun _ => eq_refl) HM).
    reflexivity.
  - rewrite HT, !List.filter_app.
    rewrite (filter_spawn_quiet is_setup_event _ setup_event_no_spawn HS).
    rewrite (filter_spawn_quiet is_monitor_event _ monitor_event_no_spawn HM).
    reflexivity.
Qed.

Lemma parse_mesh_stats_quiet (check_output : string) :
  writes (fst (Mesh.Job._parse_mesh_stats check_output)) = [].
Proof. unfold Mesh.Job._parse_mesh_stats. cbn. apply parse_stat_lines_quiet. Qed.

(** X7: when the three meshing commands exit with code 0 and [checkMesh]
    can be started, the mesh job ends completed with progress 100 and both
    times set, [mesh_stats] is the dict parsed from the output of
    [checkMesh] (never [None]), and exactly the four commands have run, in
    order. *)
Theorem mesh_completion (w : world) (job_id geometry : string) (cfg : json) :
  let job := Mesh.MeshGenerationJob job_id geometry cfg in
  let trace := Mesh.Job.thread_trace w job in
  let final := Mesh.apply_mesh_events job trace in
  mesher_launched w job ->
  returncode w ["snappyHexMesh"; "-overwrite"] = 0%Z ->
  raises w (Spawn ["checkMesh"] None) = None ->
  snd (Mesh.Job._copy_mesh w job) = Ok tt ->
  Mesh.base final =
    mkJob job_id cfg "completed" 100 (Some (time_start w)) (Some (time_end w)) None /\
  Mesh.mesh_stats final =
    Mesh.mesh_stats (Mesh.apply_mesh_events job
                       (fst (Mesh.Job._parse_mesh_stats (stdout w ["checkMesh"])))) /\
  Mesh.mesh_stats final <> None /\
  List.filter is_spawn trace =
    [IO (Spawn ["blockMesh"] None); IO (Spawn ["surfaceFeatureExtract"] None);
     IO (Spawn ["snappyHexMesh"; "-overwrite"] None); IO (Spawn ["checkMesh"] None)].
Proof.
  intros job trace final HL Hrc Hck Hcp. subst final trace.
  pose proof (mesh_trace_after_launch w job HL) as HT.
  rewrite Hrc, Hck, Hcp in HT. cbn [negb Z.eqb] in HT.
  pose proof (mesh_record_after_monitor w job_id geometry cfg (proj1 (proj1 HL))) as HR.
  fold job in HR.
  pose proof (mesh_setup_events w job) as HS.
  pose proof (mesh_monitor_events (time_start w) (monitor_obs w)) as HM.
  destruct (copy_mesh_no_spawn w job) as (HC1 & HC2 & HC3).
  assert (stats_writes (Mesh.Job.thread_trace w job) =
          stats_writes (fst (Mesh.Job._parse_mesh_stats (stdout w ["checkMesh"])))) as HST.
  { rewrite HT, !stats_writes_app.
    rewrite (stats_writes_quiet is_setup_event _ (fun _ => eq_refl) HS).
    rewrite (stats_writes_quiet is_monitor_event _ (fun _ => eq_refl) HM).
    cbn [app stats_writes flat_map]. fold (stats_writes).
    change (flat_map _ ?t) with (stats_writes t).
    rewrite !stats_writes_app, HC2. cbn. now rewrite List.app_nil_r. }
  split; [|split; [|split]].
  - rewrite base_apply_mesh_events, HT, apply_events_app, HR.
    change (SetProgress 90 :: IO (Spawn ["checkMesh"] None) :: ?P ++ ?C ++ ?E)
      with ([SetProgress 90; IO (Spawn ["checkMesh"] None)] ++ P ++ C ++ E).
    rewrite !apply_events_app.
    rewrite (apply_events_quiet _ (fst (Mesh.Job._parse_mesh_stats _)))
      by apply parse_mesh_stats_quiet.
    rewrite (apply_events_quiet _ (fst (Mesh.Job._copy_mesh w job))) by exact HC3.
    reflexivity.
  - now rewrite !mesh_stats_apply_mesh_events, HST.
  - rewrite mesh_stats_apply_mesh_events, HST. unfold Mesh.Job._parse_mesh_stats. cbn [fst].
    destruct (last (stats_writes (SetMeshStats [] :: _))) eqn:E; [discriminate|].
    apply last_None in E. discriminate E.
  - rewrite HT, !List.filter_app.
    rewrite (filter_spawn_quiet is_setup_event _ setup_event_no_spawn HS).
    rewrite (filter_spawn_quiet is_monitor_event _ monitor_event_no_spawn HM).
    unfold Mesh.Job._parse_mesh_stats. cbn [fst app List.filter is_spawn].
    rewrite !List.filter_app, parse_stat_lines_no_spawn, HC1. reflexivity.
Qed.
(** *** Progress values of a simulation *)

Lemma Qtrunc_below_one (q : Q) : (q <= 1)%Q -> (Qtrunc (q * 0.4) <= 0)%Z.
Proof.
  intros Hq. destruct (Qlt_le_dec q 0) as [Hneg|Hpos].
  - assert (q * 0.4 <= 0)%Q as H by lra.
    unfold Qtrunc. unfold Qle in H. cbn [Qnum Qden] in H. rewrite Z.mul_1_r in H.
    transitivity (0 ÷ Z.pos (Qden (q * 0.4)))%Z; [|reflexivity].
    apply Z.quot_le_mono; [lia | lia].
  - rewrite Qtrunc_fraction by assumption. reflexivity.
Qed.

(** The monitoring loop of [run_simulation] never writes a progress above 50. *)
Lemma sim_monitor_capped (sim : job) (obs : list observation) :
  Forall (fun k => (k <= 50)%Z) (progress_writes (fst (CFD.monitor sim obs))).
Proof.
  induction obs as [|o obs IH]; [constructor|].
  cbn [CFD.monitor]. unfold sleep, lift, set, bind.
  destruct (parse_log_progress_capped sim (obs_log o)) as (v & Hv & Hcap).
  rewrite Hv.
  destruct v as [q| | |]; try (cbn; constructor); try discriminate Hcap.
  assert (Hle : (q <= 1)%Q).
  { cbn in Hcap. apply negb_false_iff in Hcap. now apply Qle_bool_iff. }
  change (fmul (Fin q) (Fin 0.4)) with (Fin (q * 0.4)).
  change (py_int (Fin (q * 0.4))) with (Ok (Qtrunc (q * 0.4))).
  pose proof (Qtrunc_below_one q Hle).
  destruct (CFD.monitor sim obs) as [t [[]|]]; cbn in *; constructor; auto; lia.
Qed.

Lemma last_satisfies {A} (P : A -> Prop) (l : list A) (d : A) :
  P d -> Forall P l -> P (List.last l d).
Proof.
  intros Hd H. revert d Hd. induction H as [|x l Hx Hl IH]; intros d Hd; [exact Hd|].
  rewrite last_cons_default. now apply IH.
Qed.

Lemma run_progress (j : job) (t : list event) (sched : list action) (P : Z -> Prop) :
  P (progress j) -> Forall P (progress_writes t) ->
  P (progress (record (run (mkShared j t) sched))).
Proof.
  intros Hj Ht.
  destruct (run_split sched (mkShared j t)) as (done & Hsplit & (_ & _ & Hp & _) & _).
  cbn [pending record] in Hsplit, Hp. rewrite Hp, progress_apply_events.
  apply last_satisfies; [exact Hj|].
  rewrite Hsplit, progress_writes_app in Ht. now apply Forall_app in Ht as [Ht _].
Qed.

Lemma sim_progress_values (w : world) (sim : job) :
  Forall (fun k => (k <= 50)%Z \/ k = 90%Z \/ k = 100%Z)
         (progress_writes (CFD.thread_trace w sim)).
Proof.
  pose proof (sim_thread_lifecycle w sim) as HL.
  pose proof (sim_monitor_capped sim (monitor_obs w)) as HC.
  rewrite <- progress_writes_writes.
  set (ks := progress_writes (fst (CFD.monitor sim (monitor_obs w)))) in *.
  assert (Forall (fun k => (k <= 50)%Z \/ k = 90%Z \/ k = 100%Z) ks) as HK.
  { eapply List.Forall_impl; [|exact HC]. cbn. intros; lia. }
  assert (forall l, Forall (fun k => (k <= 50)%Z \/ k = 90%Z \/ k = 100%Z) l ->
                    Forall (fun k => (k <= 50)%Z \/ k = 90%Z \/ k = 100%Z) (ks ++ l)) as HA.
  { intros l Hl. apply Forall_app. now split. }
  destruct HL as [m | pre e Hin | ].
  - cbn. constructor.
  - each_point Hin; norm_trace; list_normal; repeat (apply List.Forall_cons; [lia|]);
      try apply List.Forall_nil; try exact HK; apply HA;
      repeat (apply List.Forall_cons; [lia|]); apply List.Forall_nil.
  - norm_trace. list_normal. repeat (apply List.Forall_cons; [lia|]).
    apply HA; repeat (apply List.Forall_cons; [lia|]); apply List.Forall_nil.
Qed.

(** X9: the monitoring loop of [run_simulation] writes [50 + int(p * 0.4)]
    with [p] at most 1.0, that is never more than 50: at every moment the
    progress of a simulation is at most 50, or 90, or 100. *)
Theorem progress_skips_51_to_89 (w : world) (sim_id : string) (cfg : json)
    (sched : list action) :
  let sim := CFD.CFDSimulation sim_id cfg in
  let p := progress (record (run (CFD.started w sim) sched)) in
  Forall (fun k => (k <= 50)%Z) (progress_writes (fst (CFD.monitor sim (monitor_obs w)))) /\
  ((p <= 50)%Z \/ p = 90%Z \/ p = 100%Z).
Proof.
  intros sim p. split; [apply sim_monitor_capped|].
  subst p. unfold CFD.started.
  apply (run_progress sim _ sched (fun k => (k <= 50)%Z \/ k = 90%Z \/ k = 100%Z)).
  - cbn. lia.
  - apply sim_progress_values.
Qed.
(** *** The record that a runner leaves *)

Lemma apply_running (j : job) (pre : list event) (ks : list Z) (post : list event) :
  apply_events j (pre ++ map SetProgress ks ++ post) =
  apply_events
    (let j' := apply_events j pre in
     mkJob (id j') (config j') (status j') (List.last ks (progress j'))
           (start_time j') (end_time j') (error j')) post.
Proof. now rewrite !apply_events_app, apply_progress_only. Qed.



Lemma mesh_lifecycle_finished t0 t1 ks ws (j : job) :
  mesh_lifecycle t0 t1 ks ws ->
  status j = "queued" -> progress j = 0%Z -> start_time j = None ->
  end_time j = None -> error j = None ->
  Forall (fun k => (k <= 85)%Z) ks ->
  finished t0 t1 j (apply_events j ws).
Proof.
  intros HL Hst Hp Hs He Her HK. destruct j as [i c st p s0 e0 er]. cbn in *. subst.
  assert (forall d, (d <= 85)%Z -> (List.last ks d <= 90)%Z) as Hlast.
  { intros d Hd. apply (last_satisfies (fun k => (k <= 90)%Z)); [lia|].
    eapply List.Forall_impl; [|exact HK]. cbn; intros; lia. }
  destruct HL as [m | pre e Hin | ].
  - right. cbn. repeat split; try congruence; auto; lia.
  - right. each_point Hin; unfold mesh_running; list_normal.
    1-4: cbn; repeat split; try congruence; auto; lia.
    + change (?a :: ?b :: ?c :: ?d :: ?e :: ?f :: ?g :: map SetProgress ks ++ ?post)
        with ([a; b; c; d; e; f; g] ++ map SetProgress ks ++ post).
      rewrite apply_running. cbn. repeat split; try congruence; auto. apply Hlast; lia.
    + change (?a :: ?b :: ?c :: ?d :: ?e :: ?f :: ?g :: map SetProgress ks ++ ?post)
        with ([a; b; c; d; e; f; g] ++ map SetProgress ks ++ post).
      rewrite apply_running. cbn. repeat split; try congruence; auto; lia.
  - left. unfold mesh_running; list_normal.
    change (?a :: ?b :: ?c :: ?d :: ?e :: ?f :: ?g :: map SetProgress ks ++ ?post)
      with ([a; b; c; d; e; f; g] ++ map SetProgress ks ++ post).
    rewrite apply_running. reflexivity.
Qed.




(** *** [_parse_mesh_stats] *)

Lemma parse_stat_lines_cons (line : string) (rest : list string) (stats : list (string * Z)) :
  Mesh.parse_stat_lines (line :: rest) stats =
  match Mesh.stat_key line, Mesh.stat_value line with
  | Some k, Ok v =>
      SetMeshStats (Mesh.dict_set k v stats) :: Mesh.parse_stat_lines rest (Mesh.dict_set k v stats)
  | _, _ => Mesh.parse_stat_lines rest stats
  end.
Proof.
  unfold Mesh.stat_key. cbn [Mesh.parse_stat_lines].
  destruct (contains "cells:" line), (contains "points:" line), (contains "faces:" line);
    try reflexivity; now destruct (Mesh.stat_value line).
Qed.

Lemma last_cons_some {A} (x : A) (l : list A) : last (x :: l) = Some (List.last l x).
Proof.
  revert x; induction l as [|y l IH]; intros x; [reflexivity|].
  rewrite last_cons_default. cbn [last]. exact (IH y).
Qed.

Lemma final_stats_cons (line : string) (rest : list string) (stats : list (string * Z)) :
  List.last (stats_writes (Mesh.parse_stat_lines (line :: rest) stats)) stats =
  List.last (stats_writes (Mesh.parse_stat_lines rest
     match Mesh.stat_key line, Mesh.stat_value line with
     | Some k, Ok v => Mesh.dict_set k v stats
     | _, _ => stats
     end))
     match Mesh.stat_key line, Mesh.stat_value line with
     | Some k, Ok v => Mesh.dict_set k v stats
     | _, _ => stats
     end.
Proof.
  rewrite parse_stat_lines_cons.
  destruct (Mesh.stat_key line) as [k|]; [|reflexivity].
  destruct (Mesh.stat_value line) as [v|]; [|reflexivity].
  cbn [stats_writes flat_map app]. fold (stats_writes). apply last_cons_default.
Qed.




Lemma parsed_mesh_stats (j : Mesh.mesh_job) (check_output : string) :
  Mesh.mesh_stats (Mesh.apply_mesh_events j (fst (Mesh.Job._parse_mesh_stats check_output))) =
  Some (List.last (stats_writes (Mesh.parse_stat_lines (split Mesh.newline check_output) [])) []).
Proof.
  rewrite mesh_stats_apply_mesh_events. unfold Mesh.Job._parse_mesh_stats.
  cbn [fst stats_writes flat_map app]. fold (stats_writes). now rewrite last_cons_some.
Qed.

Lemma dict_set_in (k : string) (v : Z) (d : list (string * Z)) (e : string * Z) :
  In e (Mesh.dict_set k v d) -> e = (k, v) \/ In e d.
Proof.
  induction d as [|[k0 v0] d IH]; cbn; [intuition auto|].
  destruct (String.eqb k k0); cbn; intuition auto.
Qed.

Lemma dict_set_keys (k : string) (v : Z) (d : list (string * Z)) (k' : string) :
  In k' (map fst (Mesh.dict_set k v d)) -> k' = k \/ In k' (map fst d).
Proof.
  induction d as [|[k0 v0] d IH]; cbn; [intuition auto|].
  destruct (String.eqb k k0); cbn; intuition auto.
Qed.

Lemma dict_set_nodup (k : string) (v : Z) (d : list (string * Z)) :
  List.NoDup (map fst d) -> List.NoDup (map fst (Mesh.dict_set k v d)).
Proof.
  induction d as [|[k0 v0] d IH]; cbn; intros H.
  - constructor; [tauto | constructor].
  - inversion H as [|? ? Hn Hd]; subst.
    destruct (String.eqb_spec k k0) as [->|Hne]; cbn; [now constructor|].
    constructor; [|now apply IH].
    intros Hin. apply dict_set_keys in Hin as [->|Hin]; [congruence | contradiction].
Qed.

Lemma final_stats_invariant (P : list (string * Z) -> Prop) (lines : list string)
    (stats : list (string * Z)) :
  (forall line k v d, In line lines -> Mesh.stat_key line = Some k ->
                      Mesh.stat_value line = Ok v -> P d -> P (Mesh.dict_set k v d)) ->
  P stats -> P (List.last (stats_writes (Mesh.parse_stat_lines lines stats)) stats).
Proof.
  revert stats; induction lines as [|line lines IH]; intros stats Hstep H0; [exact H0|].
  rewrite final_stats_cons. apply IH.
  - intros l k v d Hl. apply Hstep. now right.
  - destruct (Mesh.stat_key line) as [k|] eqn:Hk; [|exact H0].
    destruct (Mesh.stat_value line) as [v|] eqn:Hv; [|exact H0].
    apply (Hstep line); auto. now left.
Qed.

Lemma stat_key_values (line k : string) :
  Mesh.stat_key line = Some k -> In k ["cells"; "points"; "faces"].
Proof.
  unfold Mesh.stat_key.
  destruct (contains "cells:" line), (contains "points:" line), (contains "faces:" line);
    intros [= <-]; cbn; auto.
Qed.

(** X11: after [_parse_mesh_stats], [mesh_stats] is a dict (possibly empty)
    with at most the keys [cells], [points] and [faces], each at most once,
    and every value in it is the integer of some line of the output that
    selects that key. *)
Theorem mesh_stats_entries (j : Mesh.mesh_job) (check_output : string) :
  exists stats,
    Mesh.mesh_stats (Mesh.apply_mesh_events j (fst (Mesh.Job._parse_mesh_stats check_output)))
      = Some stats /\
    List.NoDup (map fst stats) /\
    forall k v, In (k, v) stats ->
      In k ["cells"; "points"; "faces"] /\
      exists line, In line (split Mesh.newline check_output) /\
                   Mesh.stat_key line = Some k /\ Mesh.stat_value line = Ok v.
Proof.
  eexists. split; [apply parsed_mesh_stats|]. split.
  - apply (final_stats_invariant (fun d => List.NoDup (map fst d))); [|constructor].
    intros line k v d _ _ _. apply dict_set_nodup.
  - apply (final_stats_invariant
             (fun d => forall k v, In (k, v) d ->
                In k ["cells"; "points"; "faces"] /\
                exists line, In line (split Mesh.newline check_output) /\
                             Mesh.stat_key line = Some k /\ Mesh.stat_value line = Ok v)).
    + intros line k v d Hl Hk Hv Hd k' v' Hin.
      apply dict_set_in in Hin as [[= -> ->]|Hin]; [|now apply Hd].
      split; [now apply (stat_key_values line)|]. now exists line.
    + intros k v [].
Qed.
(** *** What is left to do once a job shows [completed] *)

Lemma after_status_app (s : string) (a b : list event) :
  after_status s (a ++ b) =
  match after_status s a with
  | Some r => Some (r ++ b)
  | None => after_status s b
  end.
Proof.
  induction a as [|e a IH]; [reflexivity|].
  destruct e; cbn; try exact IH. now destruct (String.eqb _ s).
Qed.

Lemma after_status_none (s : string) (t : list event) :
  ~ In s (status_writes t) -> after_status s t = None.
Proof.
  induction t as [|e t IH]; [reflexivity|].
  destruct e; cbn; try exact IH.
  intros H. destruct (String.eqb_spec s0 s) as [->|]; [exfalso; apply H; now left|].
  apply IH. intros Hin. apply H. now right.
Qed.

Lemma after_status_events (p : event -> bool) (s : string) (t : list event) :
  (forall s', p (SetStatus s') = false) -> forallb p t = true -> after_status s t = None.
Proof.
  intros Hp. induction t as [|e t IH]; [reflexivity|]. cbn.
  intros [He Ht]%andb_prop. destruct e; auto. now rewrite Hp in He.
Qed.

Lemma after_status_split (s : string) (t done rest : list event) :
  t = done ++ rest -> In (SetStatus s) done ->
  exists r, after_status s t = Some (r ++ rest).
Proof.
  intros -> Hin. rewrite after_status_app.
  assert (exists r, after_status s done = Some r) as [r ->]; [|now exists r].
  induction done as [|e done IH]; [destruct Hin|].
  destruct Hin as [->|Hin]; cbn.
  - rewrite String.eqb_refl. now eexists.
  - destruct e; auto. destruct (String.eqb _ s); auto. now eexists.
Qed.

Lemma sim_setup_not_completed (w : world) (sim : job) :
  after_status "completed" (fst (CFD.setup_case w sim)) = None.
Proof.
  apply after_status_none. rewrite <- status_writes_writes.
  destruct (setup_case_writes w sim) as [_ [[_ ->] | [m [_ ->]]]]; cbn; intuition congruence.
Qed.

Lemma mesh_setup_not_completed (w : world) (job : Mesh.mesh_job) :
  after_status "completed" (fst (Mesh.Job.setup_case w job)) = None.
Proof.
  apply after_status_none. rewrite <- status_writes_writes.
  destruct (mesh_setup_case_writes w job) as [_ [[_ ->] | [m [_ ->]]]]; cbn; intuition congruence.
Qed.

Lemma post_process_not_completed (w : world) (sim : job) :
  after_status "completed" (fst (CFD._post_process w sim)) = None.
Proof.
  apply after_status_none. rewrite <- status_writes_writes, post_process_quiet. now cbn.
Qed.

Lemma parse_stat_lines_not_completed (lines : list string) (stats : list (string * Z)) :
  after_status "completed" (Mesh.parse_stat_lines lines stats) = None.
Proof.
  apply after_status_none. rewrite <- status_writes_writes, parse_stat_lines_quiet. now cbn.
Qed.

Lemma sim_after_completed (w : world) (sim : job) :
  after_status "completed" (CFD.thread_trace w sim) = None \/
  after_status "completed" (CFD.thread_trace w sim) = Some [SetEndTime (time_end w)].
Proof.
  unfold CFD.thread_trace, CFD.run_simulation_thread.
  pose proof (sim_setup_not_completed w sim) as HS.
  pose proof (post_process_not_completed w sim) as HP.
  pose proof (after_status_events is_monitor_event "completed" _ (fun _ => eq_refl)
                (sim_monitor_events sim (monitor_obs w))) as HM.
  destruct (CFD.setup_case w sim) as [ts [[|]|e]]; cbn [fst snd bind ret] in *;
    rewrite ?List.app_nil_r; auto.
  unfold CFD.run_simulation, io, lift, set, ret, try_except, bind.
  destruct (CFD.monitor sim (monitor_obs w)) as [tm [[]|]];
    destruct (CFD._post_process w sim) as [tp [[]|]]; cbn [fst snd] in *.
  all: repeat run_step.
  all: rewrite ?List.app_nil_r, ?after_status_app, ?HS; cbn;
    rewrite ?after_status_app, ?HM, ?HP; cbn; rewrite ?after_status_app, ?HP; cbn; auto.
Qed.

Lemma mesh_after_completed (w : world) (job : Mesh.mesh_job) :
  after_status "completed" (Mesh.Job.thread_trace w job) = None \/
  after_status "completed" (Mesh.Job.thread_trace w job) = Some [SetEndTime (time_end w)].
Proof.
  unfold Mesh.Job.thread_trace, Mesh.Job.run_mesh_generation_thread.
  pose proof (mesh_setup_not_completed w job) as HS.
  pose proof (parse_stat_lines_not_completed (split Mesh.newline (stdout w ["checkMesh"])) [])
    as HP.
  pose proof (after_status_events is_monitor_event "completed" _ (fun _ => eq_refl)
                (mesh_monitor_events (time_start w) (monitor_obs w))) as HM.
  destruct (Mesh.Job.setup_case w job) as [ts [[|]|e]]; cbn [fst snd bind ret] in *;
    rewrite ?List.app_nil_r; auto.
  unfold Mesh.Job.generate_mesh, Mesh.Job.run_checked, Mesh.Job._copy_mesh,
    Mesh.Job._parse_mesh_stats, io, lift, set, ret, try_except, bind.
  destruct (Mesh.Job.monitor (time_start w) (monitor_obs w)) as [tm [[]|]]; cbn [fst snd] in *.
  all: repeat run_step.
  all: rewrite ?List.app_nil_r, ?after_status_app, ?HS; cbn;
    rewrite ?after_status_app, ?HM, ?HP; cbn; rewrite ?after_status_app, ?HP; cbn; auto.
Qed.
Lemma run_completed (j : job) (t : list event) (sched : list action) (t1 : Q) :
  status j <> "completed" ->
  after_status "completed" t = None \/ after_status "completed" t = Some [SetEndTime t1] ->
  status (record (run (mkShared j t) sched)) = "completed" ->
  pending (run (mkShared j t) sched) = [] \/
  pending (run (mkShared j t) sched) = [SetEndTime t1].
Proof.
  intros Hj Hafter Hst.
  destruct (run_split sched (mkShared j t)) as (done & Hsplit & _ & Hs).
  cbn [pending record] in Hsplit, Hs.
  destruct Hs as [Hs|Hs]; [|rewrite Hs in Hst; discriminate Hst].
  rewrite Hst in Hs. symmetry in Hs. apply status_written in Hs as [Hs|Hin]; [congruence|].
  destruct (after_status_split "completed" t done _ Hsplit Hin) as [r Hr].
  destruct Hafter as [Ha|Ha]; rewrite Ha in Hr; [discriminate Hr|].
  injection Hr as Hr. destruct r as [|e r]; cbn in Hr.
  - right. now rewrite <- Hr.
  - left. injection Hr as _ Hr. symmetry in Hr. now apply app_eq_nil in Hr as [_ ->].
Qed.

Lemma id_apply_events (j : job) (t : list event) : id (apply_events j t) = id j.
Proof.
  revert j; induction t as [|e t IH]; intros j; [reflexivity|].
  cbn. unfold apply_events in IH. rewrite IH. now destruct e.
Qed.

(** X12: [download_mesh] serves the archive of [<mesh_dir>/constant] only
    for a job whose status is [completed], and then the runner has no file
    operation left to do (at most the assignment of [end_time]); otherwise
    it answers 400 ["Mesh not ready"]. *)
Theorem download_waits_for_the_runner (w : world) (job_id geometry : string) (cfg : json)
    (sched : list action) (tar_raises : path -> option string)
    (mesh_jobs : gmap string Mesh.mesh_job) (entry : Mesh.mesh_job) :
  let job := Mesh.MeshGenerationJob job_id geometry cfg in
  let s := run (Mesh.Job.started w job) sched in
  ~ In Cancel sched ->
  mesh_jobs !! job_id = Some entry ->
  Mesh.base entry = record s ->
  match Mesh.download_mesh tar_raises job_id mesh_jobs with
  | Mesh.Refused r =>
      r = error_response "Mesh not ready" 400 /\ status (record s) <> "completed"
  | Mesh.Archive tar_path added arcname download_name =>
      status (record s) = "completed" /\
      io_ops (pending s) = [] /\
      tar_path = Mesh.mesh_dir job // "mesh.tar.gz" /\
      added = Mesh.mesh_dir job // "constant"
  | Mesh.Unhandled msg =>
      status (record s) = "completed" /\
      tar_raises (Mesh.mesh_dir job // "mesh.tar.gz") = Some msg
  end.
Proof.
  intros job s Hnc Hentry Hbase. unfold Mesh.download_mesh. rewrite Hentry, Hbase.
  assert (Mesh.mesh_dir entry = Mesh.mesh_dir job) as Hdir.
  { unfold Mesh.mesh_dir. rewrite Hbase. subst s.
    destruct (run_split_no_cancel sched (Mesh.Job.started w job) Hnc) as (done & _ & ->).
    now rewrite id_apply_events. }
  rewrite Hdir.
  destruct (String.eqb_spec (status (record s)) "completed") as [Hst|Hst]; cbn [negb].
  - assert (io_ops (pending s) = []) as Hio.
    { destruct (run_completed (Mesh.base job) (Mesh.Job.thread_trace w job) sched (time_end w))
        as [Hp|Hp]; [discriminate | apply mesh_after_completed | exact Hst | |];
        fold (Mesh.Job.started w job) in Hp; fold s in Hp; now rewrite Hp. }
    destruct (tar_raises _) as [msg|] eqn:Htar; auto.
  - now split.
Qed.

(** X13: when [get_simulation_status] reports [completed], the runner has
    finished all its file operations: at most the assignment of [end_time]
    is still to come. *)
Theorem completed_simulation_has_its_results (w : world) (sim_id : string) (cfg : json)
    (sched : list action) (now : Q) (sims : gmap string job) (view : CFD.status_view) :
  let sim := CFD.CFDSimulation sim_id cfg in
  let s := run (CFD.started w sim) sched in
  sims !! sim_id = Some (record s) ->
  CFD.get_simulation_status now sim_id sims = inl view ->
  CFD.v_status view = "completed" ->
  io_ops (pending s) = [] /\
  (pending s = [] \/ pending s = [SetEndTime (time_end w)]).
Proof.
  intros sim s Hentry Hview Hst.
  unfold CFD.get_simulation_status in Hview. rewrite Hentry in Hview.
  injection Hview as <-. cbn in Hst.
  destruct (run_completed sim (CFD.thread_trace w sim) sched (time_end w))
    as [Hp|Hp]; [discriminate | apply sim_after_completed | exact Hst | |];
    fold (CFD.started w sim) in Hp; fold s in Hp; rewrite Hp; auto.
Qed.
(** *** One runner alone in the process *)

Lemma launches_in_app (dir cwd : path) (a b : list event) :
  launches_in dir cwd (a ++ b) = launches_in dir cwd a && launches_in dir (cwd_after cwd a) b.
Proof.
  revert cwd; induction a as [|e a IH]; intros cwd; [reflexivity|].
  destruct e as [| | | | | |[]]; cbn; try apply IH.
  destruct cwd0; rewrite IH; now rewrite andb_assoc.
Qed.

Lemma launches_in_quiet (p : event -> bool) (dir cwd : path) (t : list event) :
  (forall d, p (IO (Chdir d)) = false) -> (forall c d, p (IO (Spawn c d)) = false) ->
  forallb p t = true ->
  launches_in dir cwd t = true /\ cwd_after cwd t = cwd.
Proof.
  intros Hc Hs. induction t as [|e t IH]; [now split|]. cbn [forallb].
  intros [He Ht]%andb_prop. specialize (IH Ht).
  destruct e as [| | | | | |[]]; cbn; auto.
  - now rewrite Hc in He.
  - now rewrite Hs in He.
Qed.

Lemma post_process_launches (w : world) (sim : job) (cwd : path) :
  launches_in (CFD.case_dir sim) cwd (fst (CFD._post_process w sim)) = true.
Proof.
  unfold_cfd. cbn. repeat run_step.
  all: rewrite ?String.eqb_refl; try reflexivity.
  all: destruct (CFD.sort_reverse _) as [|[? name] ?]; cbn; rewrite ?String.eqb_refl;
    try reflexivity.
  all: destruct (String.eqb name ""); cbn; rewrite ?String.eqb_refl; try reflexivity.
  all: repeat run_step; rewrite ?String.eqb_refl; reflexivity.
Qed.

Lemma sim_launches (w : world) (sim : job) (cwd : path) :
  launches_in (CFD.case_dir sim) cwd (CFD.thread_trace w sim) = true.
Proof.
  unfold CFD.thread_trace, CFD.run_simulation_thread.
  destruct (launches_in_quiet is_setup_event (CFD.case_dir sim) cwd _
              (fun _ => eq_refl) (fun _ _ => eq_refl) (sim_setup_events w sim)) as [HS1 HS2].
  pose proof (fun c => launches_in_quiet is_monitor_event (CFD.case_dir sim) c _
              (fun _ => eq_refl) (fun _ _ => eq_refl) (sim_monitor_events sim (monitor_obs w)))
    as HM.
  pose proof (post_process_launches w sim) as HP.
  destruct (CFD.setup_case w sim) as [ts [[|]|e]]; cbn [fst snd bind ret] in *;
    rewrite ?List.app_nil_r; auto.
  unfold CFD.run_simulation, io, lift, set, ret, try_except, bind.
  destruct (CFD.monitor sim (monitor_obs w)) as [tm [[]|]];
    destruct (CFD._post_process w sim) as [tp [[]|]]; cbn [fst snd] in *.
  all: repeat run_step.
  all: rewrite ?List.app_nil_r, ?launches_in_app, ?HS1, ?HS2; cbn;
    rewrite ?String.eqb_refl; cbn;
    rewrite ?launches_in_app; cbn;
    rewrite ?(proj1 (HM _)), ?(proj2 (HM _)); cbn; rewrite ?launches_in_app, ?HP; cbn;
    rewrite ?andb_true_r; auto.
Qed.
Lemma parse_stat_lines_launches (lines : list string) (stats : list (string * Z))
    (dir cwd : path) :
  launches_in dir cwd (Mesh.parse_stat_lines lines stats) = true /\
  cwd_after cwd (Mesh.parse_stat_lines lines stats) = cwd.
Proof.
  revert stats; induction lines as [|line lines IH]; intros stats; [now split|].
  rewrite parse_stat_lines_cons.
  destruct (Mesh.stat_key line); [|apply IH]. destruct (Mesh.stat_value line); cbn; apply IH.
Qed.

Lemma mesh_launches (w : world) (job : Mesh.mesh_job) (cwd : path) :
  launches_in (Mesh.case_dir job) cwd (Mesh.Job.thread_trace w job) = true.
Proof.
  unfold Mesh.Job.thread_trace, Mesh.Job.run_mesh_generation_thread.
  destruct (launches_in_quiet is_setup_event (Mesh.case_dir job) cwd _
              (fun _ => eq_refl) (fun _ _ => eq_refl) (mesh_setup_events w job)) as [HS1 HS2].
  pose proof (fun c => launches_in_quiet is_monitor_event (Mesh.case_dir job) c _
              (fun _ => eq_refl) (fun _ _ => eq_refl)
              (mesh_monitor_events (time_start w) (monitor_obs w))) as HM.
  pose proof (fun c => parse_stat_lines_launches
                (split Mesh.newline (stdout w ["checkMesh"])) [] (Mesh.case_dir job) c) as HP.
  destruct (Mesh.Job.setup_case w job) as [ts [[|]|e]]; cbn [fst snd bind ret] in *;
    rewrite ?List.app_nil_r; auto.
  unfold Mesh.Job.generate_mesh, Mesh.Job.run_checked, Mesh.Job._copy_mesh,
    Mesh.Job._parse_mesh_stats, io, lift, set, ret, try_except, bind.
  destruct (Mesh.Job.monitor (time_start w) (monitor_obs w)) as [tm [[]|]]; cbn [fst snd] in *.
  all: repeat run_step.
  all: rewrite ?List.app_nil_r, ?launches_in_app, ?HS1, ?HS2; cbn;
    rewrite ?String.eqb_refl; cbn;
    rewrite ?launches_in_app; cbn;
    rewrite ?(proj1 (HM _)), ?(proj2 (HM _)); cbn; rewrite ?String.eqb_refl; cbn;
    rewrite ?launches_in_app, ?(proj1 (HP _)), ?(proj2 (HP _)); cbn;
    rewrite ?andb_true_r; auto.
Qed.

Lemma alone_in_process (dir : path) (order : list nat) (t : list event) (cwd : path)
    (launched : list Process.launch) :
  launches_in dir cwd t = true ->
  Forall (fun l => Process.directory l = dir) launched ->
  Forall (fun l => Process.directory l = dir)
         (Process.launched (Process.schedule (Process.mkProc cwd [t] launched) order)).
Proof.
  revert t cwd launched; induction order as [|i order IH]; intros t cwd launched Ht Hl;
    [exact Hl|].
  cbn [Process.schedule fold_left]. fold (Process.schedule).
  change (fold_left Process.thread_step order ?p) with (Process.schedule p order).
  destruct i as [|i]; [|now apply IH].
  destruct t as [|e t]; [now apply IH|].
  unfold Process.thread_step. cbn [Process.threads lookup list_lookup Process.cwd Process.launched].
  cbn [insert list_insert].
  destruct e as [| | | | | |[]]; cbn [Process.effect Process.threads Process.cwd Process.launched];
    try (apply IH; [exact Ht | exact Hl]).
  destruct cwd0 as [d|]; cbn in Ht; apply andb_prop in Ht as [Hd Ht];
    apply String.eqb_eq in Hd; (apply IH; [exact Ht|]);
    apply Forall_app; (split; [exact Hl|]); now repeat constructor.
Qed.

(** X14: a runner that is alone in its process starts every command in
    its own case directory, whatever the working directory of the process
    was before and whatever the environment does. *)
Theorem sequential_isolation (w : world) (job_id geometry : string) (cfg : json)
    (cwd : path) (order : list nat) :
  let sim := CFD.CFDSimulation job_id cfg in
  let job := Mesh.MeshGenerationJob job_id geometry cfg in
  Forall (fun l => Process.directory l = CFD.case_dir sim)
    (Process.launched
       (Process.schedule (Process.mkProc cwd [CFD.thread_trace w sim] []) order)) /\
  Forall (fun l => Process.directory l = Mesh.case_dir job)
    (Process.launched
       (Process.schedule (Process.mkProc cwd [Mesh.Job.thread_trace w job] []) order)).
Proof.
  intros sim job. split; apply alone_in_process; try constructor.
  - apply sim_launches.
  - apply mesh_launches.
Qed.
(** *** Requests that pass validation without being objects *)

(** X15: a request body that passes the validation of [start_simulation]
    without being an object (a string or a list containing both field
    names) is answered 202; its runner creates the four directories of the
    case and then fails with ["Setup failed: "] followed by the message of
    the attribute error, before any file is written. *)
Theorem accepted_body_without_get (w : world) (body : json) (uuid msg : string)
    (sims : gmap string job) :
  let r := CFD.start_simulation body uuid sims in
  let sim := CFD.CFDSimulation uuid body in
  CFD.first_missing ["wind_speed"; "mesh_id"] body = Ok None ->
  py_get body "wind_speed" (JInt 10) = Raise msg ->
  (forall p, raises w (Mkdir p) = None) ->
  code (reply r) = 202%Z /\ spawned r = Some sim /\
  CFD.thread_trace w sim =
    [SetStatus "setting_up"; IO (Mkdir (CFD.case_dir sim)); IO (Mkdir (CFD.case_dir sim // "0"));
     IO (Mkdir (CFD.case_dir sim // "constant")); IO (Mkdir (CFD.case_dir sim // "system"));
     SetError ("Setup failed: " +:+ msg); SetStatus "failed"] /\
  apply_events sim (CFD.thread_trace w sim) =
    mkJob uuid body "failed" 0 None None (Some ("Setup failed: " +:+ msg)).
Proof.
  intros r sim Hv Hg Hmk. subst r. unfold CFD.start_simulation. rewrite Hv. cbn [rbind].
  split; [reflexivity|]. split; [reflexivity|].
  assert (CFD.thread_trace w sim =
    [SetStatus "setting_up"; IO (Mkdir (CFD.case_dir sim)); IO (Mkdir (CFD.case_dir sim // "0"));
     IO (Mkdir (CFD.case_dir sim // "constant")); IO (Mkdir (CFD.case_dir sim // "system"));
     SetError ("Setup failed: " +:+ msg); SetStatus "failed"]) as HT.
  { unfold CFD.thread_trace, CFD.run_simulation_thread, CFD.setup_case,
      CFD._create_boundary_conditions, io, lift, set, ret, try_except, bind.
    rewrite !Hmk. cbn [config]. unfold sim at 1. cbn [config CFD.CFDSimulation].
    rewrite Hg. reflexivity. }
  split; [exact HT|]. rewrite HT. reflexivity.
Qed.

Lemma accepted_body_without_get_witness :
  let body := JStr "wind_speed=12;mesh_id=m1" in
  let w := Scenario.calm in
  (CFD.first_missing ["wind_speed"; "mesh_id"] body = Ok None /\
   py_get body "wind_speed" (JInt 10) = Raise "'str' object has no attribute 'get'" /\
   (forall p, raises w (Mkdir p) = None)) /\
  code (reply (CFD.start_simulation body "u1" ∅)) = 202%Z /\
  apply_events (CFD.CFDSimulation "u1" body) (CFD.thread_trace w (CFD.CFDSimulation "u1" body)) =
    mkJob "u1" body "failed" 0 None None
          (Some "Setup failed: 'str' object has no attribute 'get'").
Proof.
  intros body w.
  assert (H1 : CFD.first_missing ["wind_speed"; "mesh_id"] body = Ok None)
    by (vm_compute; reflexivity).
  assert (H2 : py_get body "wind_speed" (JInt 10) = Raise "'str' object has no attribute 'get'")
    by reflexivity.
  assert (H3 : forall p, raises w (Mkdir p) = None) by reflexivity.
  split; [auto|].
  destruct (accepted_body_without_get w body "u1" _ ∅ H1 H2 H3) as (Hc & _ & _ & Hf).
  split; [exact Hc | exact Hf].
Defined.

(** *** A job right after its creation *)




(** X18: what [get_status] shows of a mesh job whose runner has returned
    (the clock not being at 0): either [completed], progress 100, no error
    and the duration [end_time - start_time], whenever it is asked; or
    [failed] with an error, and then no duration (failure during setup) or
    the duration [now - start_time], which keeps growing, since a failed
    job never gets an end time. *)
Theorem finished_mesh_job_status (w : world) (job_id geometry : string) (cfg : json) (now : Q) :
  let job := Mesh.MeshGenerationJob job_id geometry cfg in
  let final := Mesh.apply_mesh_events job (Mesh.Job.thread_trace w job) in
  let v := Mesh.get_status now final in
  Qis_zero (time_start w) = false -> Qis_zero (time_end w) = false ->
  Mesh.v_id v = job_id /\
  ((Mesh.v_status v = "completed" /\ Mesh.v_progress v = 100%Z /\ Mesh.v_error v = None /\
    Mesh.v_duration v = Some (time_end w - time_start w)%Q) \/
   (Mesh.v_status v = "failed" /\ Mesh.v_error v <> None /\ (Mesh.v_progress v <= 90)%Z /\
    (Mesh.v_duration v = None \/ Mesh.v_duration v = Some (now - time_start w)%Q))).
Proof.
  intros job final v H0 H1. subst v. unfold Mesh.get_status.
  subst final. rewrite base_apply_mesh_events. cbn [Mesh.v_id Mesh.v_status Mesh.v_progress
    Mesh.v_error Mesh.v_duration].
  assert (finished (time_start w) (time_end w) (Mesh.base job)
            (apply_events (Mesh.base job) (Mesh.Job.thread_trace w job))) as HF.
  { rewrite <- apply_events_writes.
    eapply mesh_lifecycle_finished; try reflexivity; [apply mesh_thread_lifecycle|].
    apply mesh_monitor_capped. }
  destruct HF as [-> | (Hs & He & Hend & Hst & Hp & Hid & _)].
  - cbn. rewrite H0, H1. split; [reflexivity|]. left. repeat split; reflexivity.
  - split; [exact Hid|]. right. rewrite Hend. cbn [Mesh.set_time].
    repeat split; auto.
    destruct Hst as [-> | ->]; cbn [Mesh.set_time]; [now left|]. rewrite H0. now right.
Qed.

Lemma finished_mesh_job_status_witness :
  let w := Scenario.meshing in
  let final := Mesh.apply_mesh_events Scenario.box (Mesh.Job.thread_trace w Scenario.box) in
  let v := Mesh.get_status 100 final in
  (Qis_zero (time_start w) = false /\ Qis_zero (time_end w) = false) /\
  Mesh.v_id v = "j1" /\
  ((Mesh.v_status v = "completed" /\ Mesh.v_progress v = 100%Z /\ Mesh.v_error v = None /\
    Mesh.v_duration v = Some (time_end w - time_start w)%Q) \/
   (Mesh.v_status v = "failed" /\ Mesh.v_error v <> None /\ (Mesh.v_progress v <= 90)%Z /\
    (Mesh.v_duration v = None \/ Mesh.v_duration v = Some (100 - time_start w)%Q))).
Proof.
  intros w final v. split; [split; reflexivity|].
  exact (finished_mesh_job_status w "j1" "box.stl" (JDict [("refinement_level", JInt 2)]) 100
           eq_refl eq_refl).
Defined.
(** *** The scenarios *)

Lemma preparation_command_failure_witness :
  let w := Scenario.block_mesh_fails in
  let job := Scenario.box in
  (mesher_prepared w job /\ returncode w ["blockMesh"] <> 0%Z) /\
  (exists msg,
     apply_events (Mesh.base job) (Mesh.Job.thread_trace w job) =
       mkJob "j1" (JDict [("refinement_level", JInt 2)]) "failed" 30 (Some 10%Q) None
             (Some ("Mesh generation failed: " +:+ msg))) /\
  List.filter is_spawn (Mesh.Job.thread_trace w job) = [IO (Spawn ["blockMesh"] None)].
Proof.
  intros w job.
  assert (H1 : mesher_prepared w job) by (repeat split; vm_compute; reflexivity).
  assert (H2 : returncode w ["blockMesh"] <> 0%Z) by (vm_compute; discriminate).
  split; [auto|].
  exact (proj1 (preparation_command_failure w "j1" "box.stl" _ H1) H2).
Defined.

Lemma mesher_failure_witness :
  let w := Scenario.snappy_fails in
  let job := Scenario.box in
  let final := Mesh.apply_mesh_events job (Mesh.Job.thread_trace w job) in
  (mesher_launched w job /\ returncode w ["snappyHexMesh"; "-overwrite"] <> 0%Z) /\
  (progress (Mesh.base final) <= 85)%Z /\
  Mesh.mesh_stats final = None /\
  List.filter is_spawn (Mesh.Job.thread_trace w job) =
    [IO (Spawn ["blockMesh"] None); IO (Spawn ["surfaceFeatureExtract"] None);
     IO (Spawn ["snappyHexMesh"; "-overwrite"] None)].
Proof.
  intros w job final.
  assert (H1 : mesher_launched w job) by (repeat split; vm_compute; reflexivity).
  assert (H2 : returncode w ["snappyHexMesh"; "-overwrite"] <> 0%Z) by (vm_compute; discriminate).
  split; [auto|].
  exact (proj2 (mesher_failure w "j1" "box.stl" _ H1 H2)).
Defined.

Lemma mesh_completion_witness :
  let w := Scenario.meshing_report in
  let job := Scenario.box in
  let final := Mesh.apply_mesh_events job (Mesh.Job.thread_trace w job) in
  (mesher_launched w job /\
   returncode w ["snappyHexMesh"; "-overwrite"] = 0%Z /\
   raises w (Spawn ["checkMesh"] None) = None /\
   snd (Mesh.Job._copy_mesh w job) = Ok tt) /\
  Mesh.base final =
    mkJob "j1" (JDict [("refinement_level", JInt 2)]) "completed" 100 (Some 10%Q) (Some 60%Q) None.
Proof.
  intros w job final.
  assert (H1 : mesher_launched w job) by (repeat split; vm_compute; reflexivity).
  assert (H4 : snd (Mesh.Job._copy_mesh w job) = Ok tt) by (vm_compute; reflexivity).
  split; [auto|].
  exact (proj1 (mesh_completion w "j1" "box.stl" _ H1 eq_refl eq_refl H4)).
Defined.


Lemma download_waits_for_the_runner_witness :
  let w := Scenario.meshing in
  let job := Scenario.box in
  let sched := repeat RunnerStep 38 in
  let s := run (Mesh.Job.started w job) sched in
  let entry := Mesh.mkMeshJob (record s) "box.stl" None in
  let mesh_jobs : gmap string Mesh.mesh_job := <["j1" := entry]> ∅ in
  (~ In Cancel sched /\ mesh_jobs !! "j1" = Some entry /\ Mesh.base entry = record s) /\
  Mesh.download_mesh (fun _ => None) "j1" mesh_jobs =
    Mesh.Archive "/meshes/j1/mesh.tar.gz" "/meshes/j1/constant" "constant" "mesh_j1.tar.gz" /\
  io_ops (pending s) = [].
Proof.
  intros w job sched s entry mesh_jobs.
  assert (H1 : ~ In Cancel sched).
  { intros H. apply repeat_spec in H. discriminate H. }
  assert (H2 : mesh_jobs !! "j1" = Some entry) by apply lookup_insert_eq.
  split; [auto|].
  pose proof (download_waits_for_the_runner w "j1" "box.stl" (JDict [("refinement_level", JInt 2)])
                sched (fun _ => None) mesh_jobs entry H1 H2 eq_refl) as H.
  assert (Mesh.download_mesh (fun _ => None) "j1" mesh_jobs =
    Mesh.Archive "/meshes/j1/mesh.tar.gz" "/meshes/j1/constant" "constant" "mesh_j1.tar.gz") as HD.
  { unfold Mesh.download_mesh. rewrite H2. vm_compute. reflexivity. }
  rewrite HD in H. split; [exact HD | exact (proj1 (proj2 H))].
Defined.

Lemma completed_simulation_has_its_results_witness :
  let w := Scenario.calm in
  let sim := Scenario.sim in
  let s := run (CFD.started w sim) (repeat RunnerStep 42 ++ [Poll]) in
  let sims : gmap string job := <["s1" := record s]> ∅ in
  let view := CFD.get_status 30 (record s) in
  (sims !! "s1" = Some (record s) /\
   CFD.get_simulation_status 30 "s1" sims = inl view /\
   CFD.v_status view = "completed") /\
  io_ops (pending s) = [] /\
  (pending s = [] \/ pending s = [SetEndTime (time_end w)]).
Proof.
  intros w sim s sims view.
  assert (H1 : sims !! "s1" = Some (record s)) by apply lookup_insert_eq.
  assert (H2 : CFD.get_simulation_status 30 "s1" sims = inl view).
  { unfold CFD.get_simulation_status. now rewrite H1. }
  assert (H3 : CFD.v_status view = "completed") by (vm_compute; reflexivity).
  split; [auto|].
  exact (completed_simulation_has_its_results w "s1" Scenario.sim_config _ 30 sims view H1 H2 H3).
Defined.
(** *** From the mesh server to the simulation server *)

Lemma mesh_setup_no_copy (w : world) (job : Mesh.mesh_job) (dst : path) :
  forallb (copies_tree_to dst) (fst (Mesh.Job.setup_case w job)) = true.
Proof.
  unfold_mesh. cbn -[existsb].
  match goal with |- context [existsb ?f ?l] => destruct (existsb f l) end; cbn.
  all: repeat run_step. all: reflexivity.
Qed.

Lemma parse_stat_lines_no_copy (lines : list string) (stats : list (string * Z)) (dst : path) :
  forallb (copies_tree_to dst) (Mesh.parse_stat_lines lines stats) = true.
Proof.
  revert stats; induction lines as [|line lines IH]; intros stats; [reflexivity|].
  rewrite parse_stat_lines_cons.
  destruct (Mesh.stat_key line); [|apply IH]. destruct (Mesh.stat_value line); cbn; apply IH.
Qed.

Lemma monitor_event_no_copy (dst : path) (e : event) :
  is_monitor_event e = true -> copies_tree_to dst e = true.
Proof. destruct e as [| | | | | |[]]; cbn; congruence. Qed.

Lemma mesh_copies (w : world) (job : Mesh.mesh_job) :
  forallb (copies_tree_to (Mesh.mesh_dir job // "constant" // "polyMesh"))
          (Mesh.Job.thread_trace w job) = true.
Proof.
  unfold Mesh.Job.thread_trace, Mesh.Job.run_mesh_generation_thread.
  pose proof (mesh_setup_no_copy w job (Mesh.mesh_dir job // "constant" // "polyMesh")) as HS.
  pose proof (forallb_weaken is_monitor_event
                (copies_tree_to (Mesh.mesh_dir job // "constant" // "polyMesh")) _
                (monitor_event_no_copy _)
                (mesh_monitor_events (time_start w) (monitor_obs w))) as HM.
  pose proof (parse_stat_lines_no_copy (split Mesh.newline (stdout w ["checkMesh"])) []
                (Mesh.mesh_dir job // "constant" // "polyMesh")) as HP.
  destruct (Mesh.Job.setup_case w job) as [ts [[|]|e]]; cbn [fst snd bind ret] in *;
    rewrite ?List.app_nil_r; auto.
  unfold Mesh.Job.generate_mesh, Mesh.Job.run_checked, Mesh.Job._copy_mesh,
    Mesh.Job._parse_mesh_stats, io, lift, set, ret, try_except, bind.
  destruct (Mesh.Job.monitor (time_start w) (monitor_obs w)) as [tm [[]|]]; cbn [fst snd] in *.
  all: repeat run_step.
  all: rewrite ?List.app_nil_r, ?forallb_app, ?HS; cbn;
    rewrite ?forallb_app, ?HM; cbn; rewrite ?forallb_app, ?HP; cbn;
    rewrite ?String.eqb_refl; auto.
Qed.

Lemma sim_setup_copies_mesh (w : world) (sim_id mesh_id : string) (items : list (string * json)) :
  let sim := CFD.CFDSimulation sim_id (JDict items) in
  assoc "mesh_id" items = Some (JStr mesh_id) ->
  mesh_id <> "" ->
  path_exists w (CFD.MESHES_DIR // mesh_id) = true ->
  snd (CFD.setup_case w sim) = Ok true ->
  In (IO (CopyTree (CFD.MESHES_DIR // mesh_id // "constant" // "polyMesh")
                   (CFD.case_dir sim // "constant" // "polyMesh")))
     (fst (CFD.setup_case w sim)).
Proof.
  intros sim Ha Hne He. unfold_cfd. unfold py_get, path_join_json, path_operand, truthy.
  cbn [config sim CFD.CFDSimulation rbind]. rewrite Ha.
  apply String.eqb_neq in Hne. rewrite Hne. cbn [negb rbind]. rewrite He.
  repeat run_step; intros H; try discriminate H; cbn; auto 20.
Qed.

Lemma setup_in_thread (w : world) (sim : job) (e : event) :
  In e (fst (CFD.setup_case w sim)) -> In e (CFD.thread_trace w sim).
Proof.
  unfold CFD.thread_trace, CFD.run_simulation_thread, bind, ret.
  destruct (CFD.setup_case w sim) as [ts [[|]|m]]; cbn [fst snd]; intros H.
  - destruct (CFD.run_simulation w sim) as [tr [b|m]]; cbn; rewrite ?List.app_nil_r;
      apply in_or_app; now left.
  - now rewrite List.app_nil_r.
  - exact H.
Qed.

(** X19: the mesh server and the simulation server agree on where a mesh
    is: the only directory a mesh job copies a tree into is
    [/meshes/<job_id>/constant/polyMesh], and a simulation whose [mesh_id]
    is that job's id copies exactly this directory into its case. *)
Theorem mesh_feeds_simulation (w w' : world) (job_id geometry sim_id : string)
    (cfg : json) (items : list (string * json)) :
  let job := Mesh.MeshGenerationJob job_id geometry cfg in
  let sim := CFD.CFDSimulation sim_id (JDict items) in
  assoc "mesh_id" items = Some (JStr job_id) ->
  job_id <> "" ->
  path_exists w' (CFD.MESHES_DIR // job_id) = true ->
  snd (CFD.setup_case w' sim) = Ok true ->
  (forall src dst, In (IO (CopyTree src dst)) (Mesh.Job.thread_trace w job) ->
     dst = CFD.MESHES_DIR // job_id // "constant" // "polyMesh") /\
  In (IO (CopyTree (CFD.MESHES_DIR // job_id // "constant" // "polyMesh")
                   (CFD.case_dir sim // "constant" // "polyMesh")))
     (CFD.thread_trace w' sim).
Proof.
  intros job sim Ha Hne He Hs. split.
  - intros src dst Hin.
    pose proof (mesh_copies w job) as HC. rewrite forallb_forall in HC.
    specialize (HC _ Hin). cbn in HC. now apply String.eqb_eq in HC.
  - apply setup_in_thread. now apply sim_setup_copies_mesh.
Qed.
(** *** The format of the geometry file *)

Lemma split_nonempty (c : ascii) (s : string) : split c s <> [].
Proof.
  destruct s as [|x s]; cbn; [discriminate|].
  destruct (Ascii.eqb x c); [discriminate|]. now destruct (split c s).
Qed.

Lemma string_append_cons (x : ascii) (a b : string) : String x a +:+ b = String x (a +:+ b).
Proof. reflexivity. Qed.

Lemma string_append_nil (b : string) : "" +:+ b = b.
Proof. reflexivity. Qed.

Lemma split_app_sep (c : ascii) (a b : string) :
  split c (a +:+ String c b) = split c a ++ split c b.
Proof.
  induction a as [|x a IH].
  - rewrite string_append_nil. cbn [split app]. now rewrite Ascii.eqb_refl.
  - rewrite string_append_cons. cbn [split]. rewrite IH.
    destruct (Ascii.eqb x c); [reflexivity|].
    pose proof (split_nonempty c a). now destruct (split c a).
Qed.

Lemma split_lacks (c : ascii) (s : string) : lacks c s = true -> split c s = [s].
Proof.
  induction s as [|x s IH]; cbn; [reflexivity|].
  intros [Hx Hs]%andb_prop. apply negb_true_iff in Hx. rewrite Hx, (IH Hs). reflexivity.
Qed.

Lemma lacks_app (c : ascii) (a b : string) :
  lacks c (a +:+ b) = lacks c a && lacks c b.
Proof.
  induction a as [|x a IH]; [reflexivity|].
  rewrite string_append_cons. cbn [lacks]. now rewrite IH, andb_assoc.
Qed.

Lemma string_length_app (a b : string) : String.length (a +:+ b) = String.length a + String.length b.
Proof.
  induction a as [|x a IH]; [reflexivity|]. rewrite string_append_cons. cbn [String.length plus].
  now rewrite IH.
Qed.

Lemma path_join_relative (base : path) (name : string) :
  lacks "/" name = true -> base // name = base +:+ String "/" name.
Proof.
  unfold path_join. destruct name as [|x r]; [reflexivity|].
  destruct x as [[] [] [] [] [] [] [] []]; try reflexivity. discriminate.
Qed.

Lemma geometry_path_name (name : string) :
  lacks "/" name = true -> name <> "" -> name <> "." ->
  Mesh.path_name (Mesh.GEOMETRIES_DIR // name) = name.
Proof.
  intros Hl Hne Hnd. unfold Mesh.path_name.
  rewrite (path_join_relative _ _ Hl), split_app_sep, (split_lacks "/" name Hl).
  change (split "/" Mesh.GEOMETRIES_DIR) with [""; "geometries"].
  cbn [app List.filter]. change (String.eqb "" "") with true. cbn [orb negb].
  change (String.eqb "geometries" "") with false.
  change (String.eqb "geometries" ".") with false. cbn [orb negb].
  destruct (String.eqb_spec name "") as [|_]; [congruence|].
  destruct (String.eqb_spec name ".") as [|_]; [congruence|].
  reflexivity.
Qed.

Lemma geometry_suffix (stem ext : string) :
  stem <> "" -> ext <> "" ->
  lacks "/" stem = true -> lacks "/" ext = true -> lacks "." ext = true ->
  Mesh.suffix (Mesh.GEOMETRIES_DIR // (stem +:+ String "." ext)) = String "." ext.
Proof.
  intros Hs He Hls Hle Hde. unfold Mesh.suffix.
  rewrite geometry_path_name.
  - rewrite split_app_sep, (split_lacks "." ext Hde), last_snoc.
    rewrite string_length_app. cbn [String.length].
    destruct (String.eqb_spec ext "") as [|_]; [congruence|].
    replace (String.length ext + 1 <? String.length stem + S (String.length ext))%nat with true.
    + reflexivity.
    + symmetry. apply Nat.ltb_lt. destruct stem; [congruence|]. cbn. lia.
  - rewrite lacks_app. cbn [lacks]. now rewrite Hls, Hle.
  - destruct stem; [congruence|]. discriminate.
  - destruct stem as [|x [|y stem]]; [congruence| |]; discriminate.
Qed.

Lemma lower_dot (ext : string) : lower (String "." ext) = String "." (lower ext).
Proof. reflexivity. Qed.

(** X20: for a geometry file named [<stem>.<ext>], the suffix that
    [_convert_geometry_to_stl] tests is [.<ext>], compared without regard
    to case with [.stl], [.obj], [.ply], [.glb] and [.gltf]: a supported
    file is loaded from [/geometries/<stem>.<ext>]; for any other the job
    fails with ["Setup failed: Unsupported geometry format: .<ext>"]
    (the suffix as written) and nothing is loaded. *)
Theorem geometry_format_check (w : world) (job_id stem ext : string) (cfg : json) :
  let name := stem +:+ String "." ext in
  let job := Mesh.MeshGenerationJob job_id name cfg in
  let src_file := Mesh.GEOMETRIES_DIR // name in
  stem <> "" -> ext <> "" ->
  lacks "/" stem = true -> lacks "/" ext = true -> lacks "." ext = true ->
  (forall p, raises w (Mkdir p) = None) ->
  Mesh.suffix src_file = String "." ext /\
  if existsb (String.eqb (lower ext)) ["stl"; "obj"; "ply"; "glb"; "gltf"]
  then raises w (LoadGeometry src_file) = None ->
       In (IO (LoadGeometry src_file)) (Mesh.Job.thread_trace w job)
  else apply_events (Mesh.base job) (Mesh.Job.thread_trace w job) =
         mkJob job_id cfg "failed" 0 None None
               (Some ("Setup failed: Unsupported geometry format: ." +:+ ext)) /\
       forall p, ~ In (IO (LoadGeometry p)) (Mesh.Job.thread_trace w job).
Proof.
  intros name job src_file Hs He Hls Hle Hde Hmk.
  pose proof (geometry_suffix stem ext Hs He Hls Hle Hde) as Hsuf.
  fold name in Hsuf. fold src_file in Hsuf. split; [exact Hsuf|].
  assert (existsb (String.eqb (lower (Mesh.suffix src_file))) Mesh.supported_formats
          = existsb (String.eqb (lower ext)) ["stl"; "obj"; "ply"; "glb"; "gltf"]) as Hex.
  { rewrite Hsuf, lower_dot. reflexivity. }
  unfold Mesh.Job.thread_trace, Mesh.Job.run_mesh_generation_thread, Mesh.Job.setup_case,
    Mesh.Job._convert_geometry_to_stl, io, lift, set, ret, try_except, bind.
  rewrite !Hmk. cbn [Mesh.geometry_file job Mesh.MeshGenerationJob].
  fold name. fold src_file. rewrite Hex.
  destruct (existsb (String.eqb (lower ext)) ["stl"; "obj"; "ply"; "glb"; "gltf"]).
  - intros Hload. rewrite Hload.
    destruct (raises w (ExportStl _));
      destruct (Mesh.Job._create_block_mesh_dict w job) as [t0 [[]|]];
      destruct (Mesh.Job._create_snappy_hex_mesh_dict w job) as [t1 [[]|]];
      destruct (Mesh.Job._create_mesh_quality_dict w job) as [t2 [[]|]];
      destruct (Mesh.Job.generate_mesh w job) as [tg [|]]; cbn; auto 20.
  - rewrite Hsuf. cbn. split; [reflexivity|].
    intros p H. repeat (destruct H as [H|H]; [discriminate H|]). destruct H.
Qed.
Lemma geometry_format_check_witness :
  let w := Scenario.meshing in
  let job := Mesh.MeshGenerationJob "j2" "Tower.dwg" (JDict []) in
  ("Tower" <> "" /\ "dwg" <> "" /\ lacks "/" "Tower" = true /\ lacks "/" "dwg" = true /\
   lacks "." "dwg" = true /\ (forall p, raises w (Mkdir p) = None)) /\
  Mesh.suffix (Mesh.GEOMETRIES_DIR // "Tower.dwg") = ".dwg" /\
  apply_events (Mesh.base job) (Mesh.Job.thread_trace w job) =
    mkJob "j2" (JDict []) "failed" 0 None None
          (Some "Setup failed: Unsupported geometry format: .dwg").
Proof.
  intros w job.
  assert (H1 : "Tower" <> "") by discriminate.
  assert (H2 : "dwg" <> "") by discriminate.
  assert (H6 : forall p, raises w (Mkdir p) = None) by reflexivity.
  split; [repeat split; auto|].
  pose proof (geometry_format_check w "j2" "Tower" "dwg" (JDict []) H1 H2 eq_refl eq_refl eq_refl H6)
    as [Hs Hf].
  split; [exact Hs|]. exact (proj1 Hf).
Defined.

Lemma mesh_feeds_simulation_witness :
  let items := [("wind_speed", JInt 12); ("mesh_id", JStr "j1")] in
  let sim := CFD.CFDSimulation "s3" (JDict items) in
  (assoc "mesh_id" items = Some (JStr "j1") /\ "j1" <> "" /\
   path_exists Scenario.calm (CFD.MESHES_DIR // "j1") = true /\
   snd (CFD.setup_case Scenario.calm sim) = Ok true) /\
  In (IO (CopyTree "/meshes/j1/case/constant/polyMesh" "/meshes/j1/constant/polyMesh"))
     (Mesh.Job.thread_trace Scenario.meshing Scenario.box) /\
  In (IO (CopyTree "/meshes/j1/constant/polyMesh" "/cases/s3/constant/polyMesh"))
     (CFD.thread_trace Scenario.calm sim).
Proof.
  intros items sim.
  assert (H2 : "j1" <> "") by discriminate.
  assert (H4 : snd (CFD.setup_case Scenario.calm sim) = Ok true) by (vm_compute; reflexivity).
  split; [repeat split; auto|].
  split.
  - vm_compute. repeat (first [left; reflexivity | right]).
  - exact (proj2 (mesh_feeds_simulation Scenario.meshing Scenario.calm "j1" "box.stl" "s3"
                    (JDict [("refinement_level", JInt 2)]) items eq_refl H2 eq_refl H4)).
Defined.
(** *** Where the geometry is read from *)






